(** * bumm-frontend: status vocabulary and dashboard handlers

    A shallow embedding of [src/config/api.ts] (the status vocabulary:
    [isTaskCompleted], [isTaskError], [getStatusDisplayName],
    [getProgressFromStatus]) and of the handlers of
    [src/components/dashboard/Dashboard.tsx] that start tracked tasks, deploy
    and duplicate projects.

    Conventions.  A JavaScript string is carried as the Rocq [string] of its
    UTF-8 bytes, so [===] on strings is equality of Rocq strings.  [null] and
    a missing property are both [None].  Numbers that the code only ever
    uses as integers are in [Z]. *)

From stdpp Require Import base decidable option list strings gmap pretty.
From Stdlib Require Import ZArith Lia Ascii.

Local Open Scope string_scope.
Local Open Scope list_scope.
Local Open Scope Z_scope.

(** ** JavaScript values *)

Module Js.

(** [a === b] on two strings. *)
Definition strict_eq (a b : string) : bool := bool_decide (a = b).

(** The own property keys of [Object.prototype].  Every object literal has
    [Object.prototype] as its prototype, so reading one of these keys from
    a literal that does not define it finds the inherited member. *)
Definition Object_prototype : list string :=
  [ "constructor"; "__defineGetter__"; "__defineSetter__"; "hasOwnProperty";
    "__lookupGetter__"; "__lookupSetter__"; "isPrototypeOf";
    "propertyIsEnumerable"; "toString"; "valueOf"; "__proto__";
    "toLocaleString" ].

(** What a read [o[k]] of an object literal whose own values have type [A]
    can produce besides [undefined]: an own value, or the member of
    [Object.prototype] stored under [k] (a function, or for ["__proto__"]
    the prototype object itself). *)
Inductive value (A : Type) : Type :=
| Own (a : A)
| Inherited (key : string).
Global Arguments Own {A} a.
Global Arguments Inherited {A} key.

(** [ToBoolean]. *)
Class Truthy (A : Type) := truthy : A → bool.
Global Hint Mode Truthy ! : typeclass_instances.

(** A string is falsy exactly when it is empty. *)
Global Instance string_truthy : Truthy string := λ s, negb (strict_eq s "").

(** [undefined] and [null] are falsy. *)
Global Instance option_truthy {A} `{Truthy A} : Truthy (option A) :=
  λ o, match o with Some a => truthy a | None => false end.

(** Functions and objects are truthy. *)
Global Instance value_truthy {A} `{Truthy A} : Truthy (value A) :=
  λ v, match v with Own a => truthy a | Inherited _ => true end.

(** [o[k]] for an object literal with own properties [o]: own properties
    first, then the prototype chain, else [undefined]. *)
Definition get {A} (o : gmap string A) (k : string) : option (value A) :=
  match o !! k with
  | Some a => Some (Own a)
  | None => if bool_decide (k ∈ Object_prototype) then Some (Inherited k) else None
  end.

(** [l || r] where [l] was read from an object literal and [r : A]. *)
Definition or_else {A} `{Truthy A} (l : option (value A)) (r : A) : value A :=
  match l with
  | Some v => if truthy v then v else Own r
  | None => Own r
  end.

(** [a || b] on two possibly missing strings. *)
Definition or_string (a : option string) (b : string) : string :=
  match a with
  | Some s => if truthy s then s else b
  | None => b
  end.

End Js.

Infix "===" := Js.strict_eq (at level 70, no associativity) : bool_scope.

(** ** src/config/api.ts *)

(** [TASK_STATUS]; [values] is [Object.values] of each group. *)
Module TASK_STATUS.
Module GENERATE.
Definition NEW := "new".
Definition INITIALIZING := "initializing".
Definition INITIALIZED := "initialized".
Definition GENERATING := "generating".
Definition GENERATED := "generated".
Definition TESTING := "testing".
Definition TESTED := "tested".
Definition DEPLOYING := "deploying".
Definition DEPLOYED := "deployed".
Definition ERROR := "error".
Definition values : list string :=
  [NEW; INITIALIZING; INITIALIZED; GENERATING; GENERATED; TESTING; TESTED;
   DEPLOYING; DEPLOYED; ERROR].
End GENERATE.
Module AUDIT.
Definition NEW := "new".
Definition AUDITING := "auditing".
Definition AUDITED := "audited".
Definition ERROR := "error".
Definition values : list string := [NEW; AUDITING; AUDITED; ERROR].
End AUDIT.
Module BUILD.
Definition NEW := "new".
Definition BUILDING := "building".
Definition BUILT := "built".
Definition ERROR := "error".
Definition values : list string := [NEW; BUILDING; BUILT; ERROR].
End BUILD.
Module DEPLOY.
Definition NEW := "new".
Definition DEPLOYING := "deploying".
Definition DEPLOYED := "deployed".
Definition ERROR := "error".
Definition values : list string := [NEW; DEPLOYING; DEPLOYED; ERROR].
End DEPLOY.
End TASK_STATUS.

(** [isTaskCompleted]: the [switch] compares [taskType] with [===] against
    each case label in turn; the type annotation is erased at run time, so
    the [default] branch is kept. *)
Definition isTaskCompleted (status taskType : string) : bool :=
  if taskType === "generate" then
    (status === TASK_STATUS.GENERATE.GENERATED) || (status === TASK_STATUS.GENERATE.DEPLOYED)
  else if taskType === "audit" then
    status === TASK_STATUS.AUDIT.AUDITED
  else if taskType === "build" then
    status === TASK_STATUS.BUILD.BUILT
  else if taskType === "deploy" then
    status === TASK_STATUS.DEPLOY.DEPLOYED
  else false.

(** [isTaskError]. *)
Definition isTaskError (status : string) : bool := status === "error".

(** The object literal of [getStatusDisplayName]. *)
Definition displayName_entries : list (string * string) :=
  [ ("new", "New");
    ("initializing", "Initializing");
    ("initialized", "Initialized");
    ("generating", "Generating");
    ("generated", "Generated");
    ("testing", "Testing");
    ("tested", "Tested");
    ("deploying", "Deploying");
    ("deployed", "Deployed");
    ("error", "Error");
    ("auditing", "Auditing");
    ("audited", "Audited");
    ("building", "Building");
    ("built", "Built") ].

Definition displayName_statusMap : gmap string string :=
  list_to_map displayName_entries.

(** [getStatusDisplayName]: [statusMap[status] || status]. *)
Definition getStatusDisplayName (status : string) : Js.value string :=
  Js.or_else (Js.get displayName_statusMap status) status.

(** [{ stage, progress, message }]. *)
Record Progress : Type := mkProgress {
  stage : string;
  progress : Z;
  message : string;
}.

Global Instance Progress_eq_dec : EqDecision Progress.
Proof. solve_decision. Defined.

(** An object literal is truthy. *)
Global Instance Progress_truthy : Js.Truthy Progress := λ _, true.

(** The object literal of [getProgressFromStatus]. *)
Definition progress_entries : list (string * Progress) :=
  [ ("new", mkProgress "initializing" 10 "Initializing...");
    ("initializing", mkProgress "initializing" 30 "Setting up environment...");
    ("generating", mkProgress "generating" 60 "Generating smart contract...");
    ("generated", mkProgress "completed" 100 "Contract generated successfully!");
    ("testing", mkProgress "testing" 80 "Running tests...");
    ("tested", mkProgress "deploying" 90 "Preparing for deployment...");
    ("deploying", mkProgress "deploying" 95 "Deploying to network...");
    ("deployed", mkProgress "completed" 100 "Contract deployed successfully!");
    ("error", mkProgress "error" 0 "Generation failed");
    ("auditing", mkProgress "generating" 50 "Analyzing code...");
    ("audited", mkProgress "completed" 100 "Audit completed!");
    ("building", mkProgress "generating" 50 "Building contract...");
    ("built", mkProgress "completed" 100 "Build completed!") ].

Definition progress_statusMap : gmap string Progress :=
  list_to_map progress_entries.

(** The literal on the right of [||] in [getProgressFromStatus]. *)
Definition default_progress : Progress :=
  mkProgress "initializing" 0 "Processing...".

(** [getProgressFromStatus]: [statusMap[status] || { ... }]. *)
Definition getProgressFromStatus (status : string) : Js.value Progress :=
  Js.or_else (Js.get progress_statusMap status) default_progress.

(** [getProgressFromStatus(status).progress]: the members of
    [Object.prototype] have no [progress] property, so the read gives
    [undefined] on them. *)
Definition progress_of_status (status : string) : option Z :=
  match getProgressFromStatus status with
  | Js.Own p => Some (progress p)
  | Js.Inherited _ => None
  end.

(** ** The four functions as one

    An invocation of one of the four functions, and what it returns. *)

Inductive Invocation : Type :=
| call_isTaskCompleted (status taskType : string)
| call_isTaskError (status : string)
| call_getStatusDisplayName (status : string)
| call_getProgressFromStatus (status : string).

Inductive Result : Type :=
| result_boolean (b : bool)
| result_displayName (v : Js.value string)
| result_progress (v : Js.value Progress).

(** The four functions, as one function of the invocation. *)
Definition run (c : Invocation) : Result :=
  match c with
  | call_isTaskCompleted status taskType => result_boolean (isTaskCompleted status taskType)
  | call_isTaskError status => result_boolean (isTaskError status)
  | call_getStatusDisplayName status => result_displayName (getStatusDisplayName status)
  | call_getProgressFromStatus status => result_progress (getProgressFromStatus status)
  end.

(** ** Strings of the handlers *)

Module JsString.

Definition byte (n : N) : ascii := Ascii.ascii_of_N n.

Fixpoint utf8 (bytes : list N) : string :=
  match bytes with
  | [] => ""
  | b :: bytes => String (byte b) (utf8 bytes)
  end.

(** The double quote, for the template literals that contain one. *)
Definition dquote : string := utf8 [34%N].

(** The UTF-8 encodings of the code points that [String.prototype.trim]
    removes: WhiteSpace (TAB, VT, FF, SP, NBSP, ZWNBSP and the space
    separators) and LineTerminator (LF, CR, LS, PS). *)
Definition WhiteSpace : list string :=
  map utf8
    [ [0x09]; [0x0A]; [0x0B]; [0x0C]; [0x0D]; [0x20];
      [0xC2; 0xA0];
      [0xE1; 0x9A; 0x80];
      [0xE2; 0x80; 0x80]; [0xE2; 0x80; 0x81]; [0xE2; 0x80; 0x82];
      [0xE2; 0x80; 0x83]; [0xE2; 0x80; 0x84]; [0xE2; 0x80; 0x85];
      [0xE2; 0x80; 0x86]; [0xE2; 0x80; 0x87]; [0xE2; 0x80; 0x88];
      [0xE2; 0x80; 0x89]; [0xE2; 0x80; 0x8A];
      [0xE2; 0x80; 0xA8]; [0xE2; 0x80; 0xA9]; [0xE2; 0x80; 0xAF];
      [0xE2; 0x81; 0x9F];
      [0xE3; 0x80; 0x80];
      [0xEF; 0xBB; 0xBF] ]%N.

(** [strip_prefix p s] is the rest of [s] after [p], when [s] starts with [p]. *)
Fixpoint strip_prefix (p s : string) : option string :=
  match p, s with
  | EmptyString, _ => Some s
  | String a p', String b s' => if bool_decide (a = b) then strip_prefix p' s' else None
  | String _ _, EmptyString => None
  end.

(** The rest of [s] after one leading member of [ws], if it has one. *)
Fixpoint strip_one (ws : list string) (s : string) : option string :=
  match ws with
  | [] => None
  | w :: ws' =>
      match strip_prefix w s with
      | Some rest => Some rest
      | None => strip_one ws' s
      end
  end.

Fixpoint strip_all (fuel : nat) (ws : list string) (s : string) : string :=
  match fuel with
  | O => s
  | S fuel' =>
      match strip_one ws s with
      | Some rest => strip_all fuel' ws rest
      | None => s
      end
  end.

(** [s.trimStart()]: every removal takes at least one byte, so the length
    of [s] is fuel enough. *)
Definition trimStart (s : string) : string :=
  strip_all (String.length s) WhiteSpace s.

(** [s.trimEnd()], by trimming the reversed string of the reversed encodings. *)
Definition trimEnd (s : string) : string :=
  String.rev (strip_all (String.length s) (map String.rev WhiteSpace) (String.rev s)).

(** [s.trim()]. *)
Definition trim (s : string) : string := trimEnd (trimStart s).

(** The number of UTF-16 code units of one UTF-8 byte's code point, counted
    at its lead byte: two for a four-byte sequence, none for a
    continuation byte. *)
Definition units (a : ascii) : Z :=
  let n := Ascii.N_of_ascii a in
  if (n <? 0x80)%N then 1
  else if (n <? 0xC0)%N then 0
  else if (n <? 0xF0)%N then 1
  else 2.

(** [s.length]. *)
Fixpoint length (s : string) : Z :=
  match s with
  | EmptyString => 0
  | String a s' => units a + length s'
  end.

(** [toLowerCase] on the letters A to Z; letters outside ASCII are left as
    they are.  Only two of those lower-case to something with an ASCII
    letter in it: U+212A to k, and U+0130 to i followed by U+0307.  No
    phrase of [codeRelatedWords] below has a k or ends in i, so [includes]
    of those phrases gives the same answer. *)
Definition lower (a : ascii) : ascii :=
  let n := Ascii.N_of_ascii a in
  if ((0x41 <=? n) && (n <=? 0x5A))%N then Ascii.ascii_of_N (n + 0x20) else a.

Fixpoint toLowerCase (s : string) : string :=
  match s with
  | EmptyString => ""
  | String a s' => String (lower a) (toLowerCase s')
  end.

(** [s.includes(w)]. *)
Fixpoint includes (s w : string) : bool :=
  match strip_prefix w s with
  | Some _ => true
  | None =>
      match s with
      | EmptyString => false
      | String _ s' => includes s' w
      end
  end.

(** A string made of white space only (the empty string included). *)
Definition white_space_only (s : string) : Prop :=
  ∃ ws : list string, Forall (λ w, w ∈ WhiteSpace) ws ∧ s = foldr String.app "" ws.

(** A decimal integer in a template literal. *)
Definition of_number (n : Z) : string := pretty n.

End JsString.

(** ** src/components/dashboard/Dashboard.tsx: data *)

Module User.
(** Modelled from the spec: the user held by [useBummApi], which is not
    among the sources; the spec gives [{ id, walletAddress }].  The
    component only tests it for truthiness. *)
Record t : Type := mk {
  id : string;
  walletAddress : string;
}.
End User.

(** An object is truthy. *)
Global Instance User_truthy : Js.Truthy User.t := λ _, true.

Module Project.
(** Modelled from the spec: [Project] is declared in [types/dashboard],
    which is not among the sources.  The fields are the ones the handlers
    below read or write; [uid] is the spec's [localId] and [bummUid] its
    [backendTaskId]. *)
Record t : Type := mk {
  uid : string;
  bummUid : option string;
  name : option string;
  status : string;
  task : option string;
  created_at : string;
  updated_at : string;
  isDeployed : bool;
  isFrozen : bool;
  contractAddress : option string;
  contract_address : option string;
  deployment_status : option string;
}.
End Project.

Global Instance Project_eq_dec : EqDecision Project.t.
Proof. solve_decision. Defined.

Module ChatMessage.
(** [ChatMessage] of [types/dashboard], with the fields the handlers set;
    [timestamp] is the time value of the [Date]. *)
Record t : Type := mk {
  id : string;
  content : string;
  timestamp : Z;
  isUser : bool;
  projectUid : option string;
  taskType : option string;
}.

(** [{ ...m, content }]. *)
Definition with_content (m : t) (c : string) : t :=
  mk (id m) c (timestamp m) (isUser m) (projectUid m) (taskType m).
End ChatMessage.

Global Instance ChatMessage_eq_dec : EqDecision ChatMessage.t.
Proof. solve_decision. Defined.

(** The three closures handed to [trackTaskStatus], as the call site that
    builds them and the variables they capture. *)
Inductive Callbacks : Type :=
| GenerateCallbacks (statusMessageId : string) (updatedProject : Project.t)
| BuildCallbacks (buildStatusMessageId : string) (project : Project.t).

(** Calls that leave the component: into [useBummApi] and [useAnalytics]. *)
Inductive Call : Type :=
| sendChatMessage_call (message : string) (bummUid : option string)
| createProject_call (name : string)
| buildContract_call (code : string) (projectUid : option string)
| deployContract_call (code : string)
| trackTaskStatus_call (projectUid taskType : string) (callbacks : Callbacks) (bummUid : string)
| trackContractBuild_call (projectUid : string)
| trackCreditSpend_call (action : string) (amount : Z) (projectUid : string)
| trackContractDeploy_call (projectUid address : string).

Global Instance Callbacks_eq_dec : EqDecision Callbacks.
Proof. solve_decision. Defined.
Global Instance Call_eq_dec : EqDecision Call.
Proof. solve_decision. Defined.

(** What a [throw] carries, as far as [err instanceof Error ? err.message :
    'Unknown error'] tells values apart. *)
Inductive Thrown : Type :=
| ErrorObject (message : string)
| OtherValue.

Inductive Outcome (A : Type) : Type :=
| Returned (a : A)
| Threw (e : Thrown).
Global Arguments Returned {A} a.
Global Arguments Threw {A} e.

(** The reply of [sendChatMessage]. *)
Record ChatResponse : Type := mkChatResponse {
  reply : string;
  action : option string;
  bumm_uid : option string;
}.

(** The payload given to the completion callback, read as
    [{ uid?, status?, code? }]. *)
Record StatusResponse : Type := mkStatusResponse {
  response_uid : option string;
  response_status : option string;
  response_code : option string;
}.

(** The state the component reads and writes: the [user] and [projects] of
    [useBummApi], its own [useState] cells and [useRef] counter,
    [localStorage], the number of clock readings so far and the calls made. *)
Record Dash : Type := mkDash {
  user : option User.t;
  projects : list Project.t;
  currentProject : option Project.t;
  messages : list ChatMessage.t;
  isBuilding : bool;
  generatedCode : option (string * string);
  generationAttemptFailed : Z;
  messageIdCounter : Z;
  localStorage : gmap string string;
  clock_reads : nat;
  calls : list Call;
}.

(** An operation of [useBummApi]: it may change the project collection the
    hook owns, and resolves or rejects. *)
Definition Hook (A : Type) : Type := list Project.t → Outcome A * list Project.t.

(** What the component is given and does not define: the clock, the
    operations of [useBummApi] and whether [localStorage] accepts a write.
    [Date_now n] is the reading of the clock at its [n]-th use.
    [createProject] and [buildContract] resolve to a project: the handlers
    read [uid] from the result and spread it into a [Project]. *)
Record Env : Type := mkEnv {
  Date_now : nat → Z;
  toISOString : Z → string;
  sendChatMessage : string → option string → Hook ChatResponse;
  createProject : string → Hook Project.t;
  buildContract : string → option string → Hook Project.t;
  deployContract : string → Hook string;
  setItem_throws : string → string → option Thrown;
}.

(** ** The handler monad: state, and [throw] *)

Definition M (A : Type) : Type := Dash → Outcome A * Dash.

Global Instance M_ret : MRet M := λ A a σ, (Returned a, σ).

Global Instance M_bind : MBind M := λ A B f m σ,
  match m σ with
  | (Returned a, σ') => f a σ'
  | (Threw e, σ') => (Threw e, σ')
  end.

Definition throw {A} (e : Thrown) : M A := λ σ, (Threw e, σ).

(** [try { body } catch (err) { handler err }]. *)
Definition try_catch {A} (body : M A) (handler : Thrown → M A) : M A := λ σ,
  match body σ with
  | (Returned a, σ') => (Returned a, σ')
  | (Threw e, σ') => handler e σ'
  end.

Definition get_state : M Dash := λ σ, (Returned σ, σ).

Definition modify (f : Dash → Dash) : M unit := λ σ, (Returned tt, f σ).

(** [err instanceof Error ? err.message : 'Unknown error']. *)
Definition error_message (err : Thrown) : string :=
  match err with
  | ErrorObject m => m
  | OtherValue => "Unknown error"
  end.

(** State setters. *)
Definition setMessages (f : list ChatMessage.t → list ChatMessage.t) : M unit :=
  modify (λ σ, mkDash (user σ) (projects σ) (currentProject σ) (f (messages σ))
    (isBuilding σ) (generatedCode σ) (generationAttemptFailed σ)
    (messageIdCounter σ) (localStorage σ) (clock_reads σ) (calls σ)).

Definition setIsBuilding (b : bool) : M unit :=
  modify (λ σ, mkDash (user σ) (projects σ) (currentProject σ) (messages σ)
    b (generatedCode σ) (generationAttemptFailed σ)
    (messageIdCounter σ) (localStorage σ) (clock_reads σ) (calls σ)).

Definition setCurrentProject (p : option Project.t) : M unit :=
  modify (λ σ, mkDash (user σ) (projects σ) p (messages σ)
    (isBuilding σ) (generatedCode σ) (generationAttemptFailed σ)
    (messageIdCounter σ) (localStorage σ) (clock_reads σ) (calls σ)).

Definition setGeneratedCode (g : option (string * string)) : M unit :=
  modify (λ σ, mkDash (user σ) (projects σ) (currentProject σ) (messages σ)
    (isBuilding σ) g (generationAttemptFailed σ)
    (messageIdCounter σ) (localStorage σ) (clock_reads σ) (calls σ)).

Definition setGenerationAttemptFailed (f : Z → Z) : M unit :=
  modify (λ σ, mkDash (user σ) (projects σ) (currentProject σ) (messages σ)
    (isBuilding σ) (generatedCode σ) (f (generationAttemptFailed σ))
    (messageIdCounter σ) (localStorage σ) (clock_reads σ) (calls σ)).

Definition set_projects (ps : list Project.t) (σ : Dash) : Dash :=
  mkDash (user σ) ps (currentProject σ) (messages σ)
    (isBuilding σ) (generatedCode σ) (generationAttemptFailed σ)
    (messageIdCounter σ) (localStorage σ) (clock_reads σ) (calls σ).

(** Modelled from the spec: [updateProjects] of [useBummApi], which is not
    among the sources; the spec has every update of the project collection
    be a pure transform of the previous collection. *)
Definition updateProjects (f : list Project.t → list Project.t) : M unit :=
  modify (λ σ, set_projects (f (projects σ)) σ).

Definition log_call (c : Call) : M unit :=
  modify (λ σ, mkDash (user σ) (projects σ) (currentProject σ) (messages σ)
    (isBuilding σ) (generatedCode σ) (generationAttemptFailed σ)
    (messageIdCounter σ) (localStorage σ) (clock_reads σ) (calls σ ++ [c])).

(** [await op(...)] on an operation of [useBummApi]: the call is recorded,
    the hook updates its collection, and a rejection is thrown. *)
Definition await {A} (c : Call) (op : Hook A) : M A := λ σ,
  let σ1 := snd (log_call c σ) in
  let '(r, ps) := op (projects σ1) in
  (r, set_projects ps σ1).

(** ** src/components/dashboard/Dashboard.tsx: handlers *)

Section Dashboard.

Variable env : Env.

(** One reading of the clock: [Date.now()], or the time value of [new Date()]. *)
Definition read_clock : M Z := λ σ,
  (Returned (Date_now env (clock_reads σ)),
   mkDash (user σ) (projects σ) (currentProject σ) (messages σ)
     (isBuilding σ) (generatedCode σ) (generationAttemptFailed σ)
     (messageIdCounter σ) (localStorage σ) (S (clock_reads σ)) (calls σ)).

(** [new Date().toISOString()]. *)
Definition new_Date_toISOString : M string :=
  now ← read_clock; mret (toISOString env now).

(** [generateUniqueMessageId]. *)
Definition generateUniqueMessageId : M string :=
  modify (λ σ, mkDash (user σ) (projects σ) (currentProject σ) (messages σ)
    (isBuilding σ) (generatedCode σ) (generationAttemptFailed σ)
    (messageIdCounter σ + 1) (localStorage σ) (clock_reads σ) (calls σ));;
  now ← read_clock;
  σ ← get_state;
  mret (JsString.of_number now +:+ "_" +:+ JsString.of_number (messageIdCounter σ)).

(** Build a message, [id] first and [timestamp] second as the object
    literals do, and append it: [setMessages(prev => [...prev, m])]. *)
Definition append_message (id : M string) (content : string → string) (isUser : bool)
    (projectUid taskType : option string) : M unit :=
  i ← id;
  ts ← read_clock;
  setMessages (λ prev, prev ++ [ChatMessage.mk i (content i) ts isUser projectUid taskType]).

Definition post (content : string) (isUser : bool) (projectUid taskType : option string) : M unit :=
  append_message generateUniqueMessageId (λ _, content) isUser projectUid taskType.

(** [addAIMessage]. *)
Definition addAIMessage (content : string) : M unit := post content false None None.

(** [localStorage.setItem(k, v)]. *)
Definition localStorage_setItem (k v : string) : M unit := λ σ,
  match setItem_throws env k v with
  | Some e => (Threw e, σ)
  | None =>
      (Returned tt,
       mkDash (user σ) (projects σ) (currentProject σ) (messages σ)
         (isBuilding σ) (generatedCode σ) (generationAttemptFailed σ)
         (messageIdCounter σ) (<[k := v]> (localStorage σ)) (clock_reads σ) (calls σ))
  end.

(** [l.map(f)] for an [f] that reads the clock. *)
Fixpoint mapM {A B} (f : A → M B) (l : list A) : M (list B) :=
  match l with
  | [] => mret []
  | a :: l' => b ← f a; bs ← mapM f l'; mret (b :: bs)
  end.

(** [{ ...p, status: 'generated', task: null, updated_at }]. *)
Definition generated (p : Project.t) (updated_at : string) : Project.t :=
  Project.mk (Project.uid p) (Project.bummUid p) (Project.name p) "generated" None
    (Project.created_at p) updated_at (Project.isDeployed p) (Project.isFrozen p)
    (Project.contractAddress p) (Project.contract_address p) (Project.deployment_status p).

(** The progress callback of a call site. *)
Definition onProgress (cb : Callbacks) (progress : Progress) : M unit :=
  match cb with
  | GenerateCallbacks statusMessageId _ =>
      setMessages (map (λ m,
        if ChatMessage.id m === statusMessageId
        then ChatMessage.with_content m ("⚡ " +:+ message progress)
        else m))
  | BuildCallbacks buildStatusMessageId _ =>
      setMessages (map (λ m,
        if ChatMessage.id m === buildStatusMessageId
        then ChatMessage.with_content m ("🔧 " +:+ message progress)
        else m))
  end.

(** The completion callback of a call site.  The handlers run in the
    browser, so [typeof window !== 'undefined'] holds.  The updater of the
    generate site reads the clock at every project it rewrites. *)
Definition onComplete (cb : Callbacks) (result : StatusResponse) : M unit :=
  match cb with
  | GenerateCallbacks _ updatedProject =>
      match response_code result with
      | Some code =>
          if Js.truthy code then
            try_catch
              (localStorage_setItem ("bumm_contract_code_" +:+ Project.uid updatedProject) code)
              (λ _, mret tt);;
            setGeneratedCode (Some (Project.uid updatedProject, code))
          else mret tt
      | None => mret tt
      end;;
      σ ← get_state;
      ps ← mapM (λ p,
              if Project.uid p === Project.uid updatedProject
              then (t ← new_Date_toISOString; mret (generated p t))
              else mret p) (projects σ);
      updateProjects (λ _, ps);;
      post "✅ Smart contract generated successfully! You can review the code in the editor, then Build → Audit → Deploy."
        false None None
  | BuildCallbacks _ project =>
      log_call (trackContractBuild_call (Project.uid project));;
      log_call (trackCreditSpend_call "build" 25 (Project.uid project));;
      setIsBuilding false;;
      post "Build completed successfully! Your Solana program is ready for deployment."
        false (Some (Project.uid project)) (Some "build")
  end.

(** The error callback of a call site. *)
Definition onError (cb : Callbacks) (error : string) : M unit :=
  match cb with
  | GenerateCallbacks _ _ =>
      setGenerationAttemptFailed (λ prev, prev + 1);;
      post ("❌ Generation failed: " +:+ error +:+ ". Please try again.") false None None
  | BuildCallbacks _ project =>
      setIsBuilding false;;
      post ("Build failed: " +:+ error) false (Some (Project.uid project)) (Some "build")
  end.

(** [trackTaskStatus(projectUid, taskType, onProgress, onComplete, onError,
    bummUid)]: the tracker lives in [useBummApi]; the call is recorded. *)
Definition trackTaskStatus (projectUid taskType : string) (cb : Callbacks) (bummUid : string) : M unit :=
  log_call (trackTaskStatus_call projectUid taskType cb bummUid).

Definition codeRelatedWords : list string :=
  [ "this code"; "my code"; "the code"; "this contract"; "improve"; "fix";
    "review"; "audit"; "build" ].

Definition nl : string := JsString.utf8 [10%N].

(** Step 2 of [handleSendMessage]. *)
Definition messageToSend (content : string) (currentContractCode : option string) : string :=
  match currentContractCode with
  | Some code =>
      if Js.truthy code && (50 <? JsString.length (JsString.trim code)) then
        if existsb (λ w, JsString.includes (JsString.toLowerCase content) w) codeRelatedWords
        then content +:+ nl +:+ nl +:+ "Here is the current contract code:" +:+ nl
               +:+ "```rust" +:+ nl +:+ code +:+ nl +:+ "```"
        else content
      else content
  | None => content
  end.

(** [{ ...project, bummUid, status: 'in-progress' }]. *)
Definition in_progress (p : Project.t) (bummUid : string) : Project.t :=
  Project.mk (Project.uid p) (Some bummUid) (Project.name p) "in-progress" (Project.task p)
    (Project.created_at p) (Project.updated_at p) (Project.isDeployed p) (Project.isFrozen p)
    (Project.contractAddress p) (Project.contract_address p) (Project.deployment_status p).

(** [currentProject?.bummUid || null]. *)
Definition bummUid_or_null (p : option Project.t) : option string :=
  match p with
  | Some p => if Js.truthy (Project.bummUid p) then Project.bummUid p else None
  | None => None
  end.

(** [handleSendMessage]; [currentProject] is the value the closure captured. *)
Definition handleSendMessage (content : string) (currentContractCode : option string) : M unit :=
  σ0 ← get_state;
  post content true None None;;
  try_catch
    (response ← await
       (sendChatMessage_call (messageToSend content currentContractCode)
          (bummUid_or_null (currentProject σ0)))
       (sendChatMessage env (messageToSend content currentContractCode)
          (bummUid_or_null (currentProject σ0)));
     post (reply response) false None None;;
     (if negb (bool_decide (action response = Some "generate"))
      then setGenerationAttemptFailed (λ prev, prev + 1)
      else mret tt);;
     match bumm_uid response with
     | Some bumm_uid =>
         if bool_decide (action response = Some "generate") && Js.truthy bumm_uid then
           project ← match currentProject σ0 with
                     | Some p => mret p
                     | None => await (createProject_call "New Contract")
                                 (createProject env "New Contract")
                     end;
           let updatedProject := in_progress project bumm_uid in
           setCurrentProject (Some updatedProject);;
           statusMessageId ← generateUniqueMessageId;
           append_message (mret statusMessageId) (λ _, "⚡ Initializing...") false None None;;
           trackTaskStatus (Project.uid updatedProject) "generate"
             (GenerateCallbacks statusMessageId updatedProject) bumm_uid
         else mret tt
     | None => mret tt
     end)
    (λ _, post "Sorry, something went wrong. Please try again." false None None).

(** [handleBuild]; [user] and [currentProject] are the values the closure
    captured. *)
Definition handleBuild (code : string) : M unit :=
  σ0 ← get_state;
  if negb (Js.truthy (user σ0)) || negb (Js.truthy (JsString.trim code)) then mret tt
  else
    setIsBuilding true;;
    try_catch
      (buildStatusMessageId ← generateUniqueMessageId;
       append_message (mret buildStatusMessageId) (λ _, "🔧 Initializing build...") false None None;;
       project ← await
         (buildContract_call code (Project.uid <$> currentProject σ0))
         (buildContract env code (Project.uid <$> currentProject σ0));
       let buildBummUid := Js.or_string (Project.bummUid project) (Project.uid project) in
       trackTaskStatus (Project.uid project) "build"
         (BuildCallbacks buildStatusMessageId project) buildBummUid)
      (λ err,
         setIsBuilding false;;
         post ("Failed to start build: " +:+ error_message err) false None None).

(** [{ ...currentProject, contractAddress, isDeployed: true, status:
    'deployed', updated_at }]. *)
Definition deployed (p : Project.t) (contractAddress updated_at : string) : Project.t :=
  Project.mk (Project.uid p) (Project.bummUid p) (Project.name p) "deployed" (Project.task p)
    (Project.created_at p) updated_at true (Project.isFrozen p)
    (Some contractAddress) (Project.contract_address p) (Project.deployment_status p).

(** [handleDeploy]; [undefined] is [None]. *)
Definition handleDeploy (code : string) : M (option string) :=
  σ0 ← get_state;
  if negb (Js.truthy (user σ0)) || negb (Js.truthy (JsString.trim code)) then mret None
  else
    try_catch
      (post "Starting deployment..." false None None;;
       contractAddress ← await (deployContract_call code) (deployContract env code);
       match currentProject σ0 with
       | Some cur =>
           t ← new_Date_toISOString;
           let updatedProject := deployed cur contractAddress t in
           setCurrentProject (Some updatedProject);;
           updateProjects (map (λ p,
             if Project.uid p === Project.uid cur then updatedProject else p))
       | None => mret tt
       end;;
       match currentProject σ0 with
       | Some cur => log_call (trackContractDeploy_call (Project.uid cur) contractAddress)
       | None => mret tt
       end;;
       post ("Deployment successful! Your smart contract is now live on Solana. Contract address: "
             +:+ contractAddress) false None None;;
       mret (Some contractAddress))
      (λ err,
         post ("Deployment failed: " +:+ error_message err) false None None;;
         throw err).

(** The object literal of [handleDuplicateProject]; [now] is [Date.now()]. *)
Definition duplicate (p : Project.t) (now : Z) (created_at updated_at : string) : Project.t :=
  Project.mk ("project_" +:+ JsString.of_number now) (Project.bummUid p)
    (Some (Js.or_string (Project.name p) "Untitled" +:+ " (Copy)")) (Project.status p)
    (Project.task p) created_at updated_at false false
    (Project.contractAddress p) None None.

(** [handleDuplicateProject]. *)
Definition handleDuplicateProject (project : Project.t) : M unit :=
  try_catch
    (now ← read_clock;
     created_at ← new_Date_toISOString;
     updated_at ← new_Date_toISOString;
     let duplicatedProject := duplicate project now created_at updated_at in
     updateProjects (λ prev, duplicatedProject :: prev);;
     addAIMessage ("Project " +:+ JsString.dquote +:+ Js.or_string (Project.name project) "Untitled"
                   +:+ JsString.dquote +:+ " duplicated as " +:+ JsString.dquote
                   +:+ default "" (Project.name duplicatedProject) +:+ JsString.dquote))
    (λ err, addAIMessage ("Failed to duplicate project: " +:+ error_message err)).

End Dashboard.

(** ** Reasoning about handlers *)

(** [wp m σ Q]: running [m] from [σ] ends, returning or throwing, in an
    outcome and a state that satisfy [Q]. *)
Definition wp {A} (m : M A) (σ : Dash) (Q : Outcome A → Dash → Prop) : Prop :=
  Q (m σ).1 (m σ).2.

(** What a step did to the parts of the state that the properties below are
    about: it left the user alone, left the collection as [ps] and the
    current project as [cur], made the calls [cs] and read the clock [n]
    times. *)
Definition evolves (σ σ' : Dash) (ps : list Project.t) (cur : option Project.t)
    (cs : list Call) (n : nat) : Prop :=
  user σ' = user σ
  ∧ projects σ' = ps
  ∧ currentProject σ' = cur
  ∧ calls σ' = calls σ ++ cs
  ∧ clock_reads σ' = (n + clock_reads σ)%nat.

(** A step that changes none of them. *)
Definition quiet (σ σ' : Dash) (n : nat) : Prop :=
  evolves σ σ' (projects σ) (currentProject σ) [] n.

(** ** Sample inputs *)

Module Sample.

Definition token : Project.t :=
  Project.mk "project_7" (Some "bumm-7") (Some "Token") "in-progress" (Some "build")
    "2024-01-01T00:00:00.000Z" "2024-01-02T00:00:00.000Z" false false None None None.

Definition vault : Project.t :=
  Project.mk "project_3" None (Some "Vault") "deployed" None
    "2023-12-01T00:00:00.000Z" "2023-12-02T00:00:00.000Z" true true
    (Some "Vau1t111") (Some "Vau1t111") (Some "confirmed").

Definition unnamed : Project.t :=
  Project.mk "project_5" None None "draft" None
    "2024-02-01T00:00:00.000Z" "2024-02-01T00:00:00.000Z" false false None None None.

Definition blank : Project.t :=
  Project.mk "project_6" None (Some "") "draft" None
    "2024-02-01T00:00:00.000Z" "2024-02-01T00:00:00.000Z" false false None None None.

(** A clock that advances by one millisecond per reading, a backend that
    accepts everything and hooks that leave the collection alone. *)
Definition env : Env :=
  mkEnv (λ n, 1700000000000 + Z.of_nat n) (λ t, "t" +:+ JsString.of_number t)
    (λ _ _ ps, (Returned (mkChatResponse "On it." (Some "generate") (Some "bumm-9")), ps))
    (λ name ps, (Returned (Project.mk "project_9" None (Some name) "draft" None "" "" false false None None None), ps))
    (λ _ _ ps, (Returned token, ps))
    (λ _ ps, (Returned "So1anaAddr", ps))
    (λ _ _, None).

Definition alice : User.t := User.mk "user_1" "wa11et".

Definition signed_in : Dash :=
  mkDash (Some alice) [vault; token] (Some token) [] false None 0 0 ∅ 0 [].

Definition signed_out : Dash :=
  mkDash None [vault; token] (Some token) [] false None 0 0 ∅ 0 [].

End Sample.

(** ** src/config/api.ts: endpoints *)

(** [API_BASE_URL]. *)
Definition API_BASE_URL : string := "/api/backend".

(** [API_ENDPOINTS]; [values] is [Object.values]. *)
Module API_ENDPOINTS.
Definition HEALTH := "/health/".
Definition BUMM_LIST := "/api/v1/bumm/list/".
Definition BUMM_GENERATE := "/api/v1/bumm/generate/".
Definition BUMM_STATUS_GENERATE := "/api/v1/bumm/status/generate/".
Definition BUMM_AUDIT := "/api/v1/bumm/audit/".
Definition BUMM_AUDIT_STATUS := "/api/v1/bumm/audit/status/".
Definition BUMM_BUILD := "/api/v1/bumm/build/".
Definition BUMM_BUILD_STATUS := "/api/v1/bumm/build/status/".
Definition BUMM_DEPLOY := "/api/v1/bumm/deploy/".
Definition BUMM_DEPLOY_STATUS := "/api/v1/bumm/deploy/status/".
Definition USER_WALLET := "/api/v1/user/wallet/".
Definition values : list string :=
  [HEALTH; BUMM_LIST; BUMM_GENERATE; BUMM_STATUS_GENERATE; BUMM_AUDIT;
   BUMM_AUDIT_STATUS; BUMM_BUILD; BUMM_BUILD_STATUS; BUMM_DEPLOY;
   BUMM_DEPLOY_STATUS; USER_WALLET].
End API_ENDPOINTS.

(** The properties of the [API_METHODS] literal, in the order written. *)
Definition API_METHODS_entries : list (string * string) :=
  [ (API_ENDPOINTS.HEALTH, "GET");
    (API_ENDPOINTS.BUMM_LIST, "GET");
    (API_ENDPOINTS.BUMM_GENERATE, "POST");
    (API_ENDPOINTS.BUMM_STATUS_GENERATE, "GET");
    (API_ENDPOINTS.BUMM_AUDIT, "POST");
    (API_ENDPOINTS.BUMM_AUDIT_STATUS, "GET");
    (API_ENDPOINTS.BUMM_BUILD, "POST");
    (API_ENDPOINTS.BUMM_BUILD_STATUS, "GET");
    (API_ENDPOINTS.BUMM_DEPLOY, "POST");
    (API_ENDPOINTS.BUMM_DEPLOY_STATUS, "GET");
    (API_ENDPOINTS.USER_WALLET, "POST") ].

(** [API_METHODS]: the keys are computed, each property is defined in turn
    and a later one would replace an earlier one with the same key. *)
Definition API_METHODS : gmap string string :=
  foldl (λ o e, <[e.1 := e.2]> o) ∅ API_METHODS_entries.

(** [API_CONFIG]. *)
Module API_CONFIG.
Definition TIMEOUT : Z := 10000.
Definition RETRY_ATTEMPTS : Z := 2.
Definition RETRY_DELAY : Z := 1000.
Definition POLL_INTERVAL : Z := 2000.
Definition MAX_POLL_ATTEMPTS : Z := 10.
End API_CONFIG.

(** ** The status vocabulary as a whole *)

(** The four task types of [isTaskCompleted]. *)
Definition task_types : list string := ["generate"; "audit"; "build"; "deploy"].

(** The group of [TASK_STATUS] that belongs to a task type. *)
Definition statuses_of (taskType : string) : list string :=
  if taskType === "generate" then TASK_STATUS.GENERATE.values
  else if taskType === "audit" then TASK_STATUS.AUDIT.values
  else if taskType === "build" then TASK_STATUS.BUILD.values
  else if taskType === "deploy" then TASK_STATUS.DEPLOY.values
  else [].

(** Every status that [TASK_STATUS] names. *)
Definition all_statuses : list string :=
  TASK_STATUS.GENERATE.values ++ TASK_STATUS.AUDIT.values
    ++ TASK_STATUS.BUILD.values ++ TASK_STATUS.DEPLOY.values.

(** A string with its first letter, if it is one of a to z, in upper case. *)
Definition capitalize (s : string) : string :=
  match s with
  | EmptyString => ""
  | String a s' =>
      let n := Ascii.N_of_ascii a in
      String (if ((0x61 <=? n) && (n <=? 0x7A))%N then Ascii.ascii_of_N (n - 0x20) else a) s'
  end.

(** ** Dashboard.tsx: the other handlers *)

(** [JSON.stringify] of the message list and, for reading it back,
    [JSON.parse] followed by the [map] that turns each [timestamp] into a
    [Date]; [None] when [JSON.parse] or the [map] throws. *)
Record Json : Type := mkJson {
  stringify : list ChatMessage.t → string;
  parse : string → option (list ChatMessage.t);
}.

Section Dashboard_projects.

Variable env : Env.

(** [addUserMessage]. *)
Definition addUserMessage (content : string) : M unit := post env content true None None.

(** [setCurrentProject(prev => f(prev))]. *)
Definition setCurrentProject_with (f : option Project.t → option Project.t) : M unit :=
  σ ← get_state; setCurrentProject (f (currentProject σ)).

(** [currentProject?.uid === project.uid]. *)
Definition is_current (cur : option Project.t) (project : Project.t) : bool :=
  match cur with
  | Some c => Project.uid c === Project.uid project
  | None => false
  end.



(** [{ ...p, isFrozen, updated_at }]. *)
Definition archived (p : Project.t) (isFrozen : bool) (updated_at : string) : Project.t :=
  Project.mk (Project.uid p) (Project.bummUid p) (Project.name p) (Project.status p) (Project.task p)
    (Project.created_at p) updated_at (Project.isDeployed p) isFrozen
    (Project.contractAddress p) (Project.contract_address p) (Project.deployment_status p).

(** [{ ...prev, isFrozen }]. *)
Definition with_isFrozen (p : Project.t) (isFrozen : bool) : Project.t :=
  archived p isFrozen (Project.updated_at p).

(** [updateProjects(prev => prev.map(p => p.uid === uid ? f(p, new
    Date().toISOString()) : p))]: the clock is read at every project that is
    rewritten. *)
Definition updateProjects_by_uid (uid : string) (f : Project.t → string → Project.t) : M unit :=
  σ ← get_state;
  ps ← mapM (λ p,
          if Project.uid p === uid
          then (t ← new_Date_toISOString env; mret (f p t))
          else mret p) (projects σ);
  updateProjects (λ _, ps).

(** [project.name || 'Untitled'] between double quotes. *)
Definition quoted_name (project : Project.t) : string :=
  JsString.dquote +:+ Js.or_string (Project.name project) "Untitled" +:+ JsString.dquote.


(** [handleArchiveProject]. *)
Definition handleArchiveProject (project : Project.t) : M unit :=
  σ0 ← get_state;
  try_catch
    (let newArchivedStatus := negb (Project.isFrozen project) in
     updateProjects_by_uid (Project.uid project) (λ p t, archived p newArchivedStatus t);;
     (if is_current (currentProject σ0) project
      then setCurrentProject_with (λ prev,
             match prev with
             | Some c => Some (with_isFrozen c newArchivedStatus)
             | None => None
             end)
      else mret tt);;
     addAIMessage env ("Project " +:+ quoted_name project +:+ " "
                       +:+ (if newArchivedStatus then "archived" else "unarchived")))
    (λ err, addAIMessage env ("Failed to archive project: " +:+ error_message err)).

(** [handleCreateGroup]. *)
Definition handleCreateGroup (project : Project.t) : M unit :=
  try_catch
    (addAIMessage env ("Group created for project " +:+ quoted_name project))
    (λ err, addAIMessage env ("Failed to create group: " +:+ error_message err)).

(** [handleAddToGroup]. *)
Definition handleAddToGroup (project : Project.t) : M unit :=
  try_catch
    (addAIMessage env ("👥 Project " +:+ quoted_name project +:+ " added to group"))
    (λ err, addAIMessage env ("Failed to add to group: " +:+ error_message err)).

(** [handleToggleVisibility]. *)
Definition handleToggleVisibility (project : Project.t) : M unit :=
  try_catch
    (addAIMessage env ("Project " +:+ quoted_name project +:+ " "
                       +:+ (if Project.isFrozen project then "shown" else "hidden")))
    (λ err, addAIMessage env ("Failed to toggle visibility: " +:+ error_message err)).

(** [handleExportProject]. *)
Definition handleExportProject (project : Project.t) : M unit :=
  try_catch
    (addAIMessage env ("Project " +:+ quoted_name project +:+ " exported successfully!"))
    (λ err, addAIMessage env ("Failed to export project: " +:+ error_message err)).

(** What [handleSendMessage] adds to [generationAttemptFailed] for an
    outcome of [sendChatMessage]: one when it resolved with an action other
    than 'generate'. *)
Definition attempt_failed (r : Outcome ChatResponse) : Z :=
  match r with
  | Returned response => if bool_decide (action response = Some "generate") then 0 else 1
  | Threw _ => 0
  end.

(** The [localStorage] key of a project's chat. *)
Definition chat_history_key (uid : string) : string := "bumm_chat_history_" +:+ uid.

(** The chat that [handleSelectProject] loads for a project from a store:
    the parsed history under the project's key, and the empty chat when the
    key is missing, holds the empty string or does not parse. *)
Definition stored_chat (json : Json) (store : gmap string string) (uid : string)
    : list ChatMessage.t :=
  match store !! chat_history_key uid with
  | Some savedMessages =>
      if Js.truthy savedMessages then default [] (parse json savedMessages) else []
  | None => []
  end.

(** [handleSelectProject]; [currentProject] and [messages] are the values the
    closure captured.  [localStorage.getItem] of a key that was never set
    is [null]. *)
Definition handleSelectProject (json : Json) (project : Project.t) : M unit :=
  σ0 ← get_state;
  try_catch
    (match currentProject σ0 with
     | Some cur =>
         if (0 <? Z.of_nat (length (messages σ0)))
         then localStorage_setItem env (chat_history_key (Project.uid cur))
                (stringify json (messages σ0))
         else mret tt
     | None => mret tt
     end;;
     setCurrentProject (Some project);;
     σ ← get_state;
     match localStorage σ !! chat_history_key (Project.uid project) with
     | Some savedMessages =>
         if Js.truthy savedMessages then
           match parse json savedMessages with
           | Some messagesWithDates => setMessages (λ _, messagesWithDates)
           | None => setMessages (λ _, [])
           end
         else setMessages (λ _, [])
     | None => setMessages (λ _, [])
     end)
    (λ _, mret tt).

End Dashboard_projects.

(** ** Handlers that also call [useAnalytics] *)

(** The calls into [useAnalytics] made by [handleCreateNew] and
    [handleDeleteProject]. *)
Inductive AnalyticsEvent : Type :=
| trackProjectCreate_event (name : string)
| trackProjectDelete_event (projectUid : string).

Global Instance AnalyticsEvent_eq_dec : EqDecision AnalyticsEvent.
Proof. solve_decision. Defined.

(** The component state together with the log of those calls. *)
Record Page : Type := mkPage {
  dash : Dash;
  analytics : list AnalyticsEvent;
}.

Definition PageM (A : Type) : Type := Page → Outcome A * Page.

Global Instance PageM_ret : MRet PageM := λ A a s, (Returned a, s).

Global Instance PageM_bind : MBind PageM := λ A B f m s,
  match m s with
  | (Returned a, s') => f a s'
  | (Threw e, s') => (Threw e, s')
  end.

(** [try { body } catch (err) { handler err }]. *)
Definition try_catch_page {A} (body : PageM A) (handler : Thrown → PageM A) : PageM A := λ s,
  match body s with
  | (Returned a, s') => (Returned a, s')
  | (Threw e, s') => handler e s'
  end.

(** A step on the component state. *)
Definition on_dash {A} (m : M A) : PageM A := λ s,
  let '(o, σ') := m (dash s) in (o, mkPage σ' (analytics s)).

Definition get_page : PageM Page := λ s, (Returned s, s).

(** A call into [useAnalytics]. *)
Definition track (e : AnalyticsEvent) : PageM unit := λ s,
  (Returned tt, mkPage (dash s) (analytics s ++ [e])).

Section Dashboard_pages.

Variable env : Env.

(** [handleCreateNew]; [user] and [projects] are the values the closure
    captured.  The message of the [catch] takes [Date.now().toString()] as
    its id, not [generateUniqueMessageId()]. *)
Definition handleCreateNew : PageM unit :=
  s0 ← get_page;
  if negb (Js.truthy (user (dash s0))) then mret tt
  else
    try_catch_page
      (let projectName :=
         "Project " +:+ JsString.of_number (Z.of_nat (length (projects (dash s0))) + 1) in
       newProject ← on_dash (await (createProject_call projectName)
                               (createProject env projectName));
       on_dash (setCurrentProject (Some newProject));;
       track (trackProjectCreate_event projectName);;
       on_dash (setMessages (λ _, []));;
       on_dash (post env ("🆕 New project " +:+ JsString.dquote +:+ projectName +:+ JsString.dquote
                          +:+ " created! Describe what smart contract you'd like to build.")
                  false None None))
      (λ err,
         on_dash (append_message env
                    (now ← read_clock env; mret (JsString.of_number now))
                    (λ _, "Failed to create new project: " +:+ error_message err)
                    false None None)).

(** [handleDeleteProject]; [currentProject] and [projects] are the values
    the closure captured. *)
Definition handleDeleteProject (project : Project.t) : PageM unit :=
  s0 ← get_page;
  try_catch_page
    (on_dash (updateProjects (filter (λ p, Project.uid p ≠ Project.uid project)));;
     (if is_current (currentProject (dash s0)) project then
        let remainingProjects :=
          filter (λ p, Project.uid p ≠ Project.uid project) (projects (dash s0)) in
        on_dash (setCurrentProject (head remainingProjects));;
        (if bool_decide (length remainingProjects = 0%nat)
         then on_dash (setMessages (λ _, []))
         else mret tt)
      else mret tt);;
     track (trackProjectDelete_event (Project.uid project));;
     on_dash (addAIMessage env ("Project " +:+ quoted_name project +:+ " deleted")))
    (λ err, on_dash (addAIMessage env ("Failed to delete project: " +:+ error_message err))).

End Dashboard_pages.

(** ** States after a step *)

Section Steps.

Variable env : Env.

Definition ticked (σ : Dash) : Dash :=
  mkDash (user σ) (projects σ) (currentProject σ) (messages σ)
    (isBuilding σ) (generatedCode σ) (generationAttemptFailed σ)
    (messageIdCounter σ) (localStorage σ) (S (clock_reads σ)) (calls σ).

Definition counted (σ : Dash) : Dash :=
  mkDash (user σ) (projects σ) (currentProject σ) (messages σ)
    (isBuilding σ) (generatedCode σ) (generationAttemptFailed σ)
    (messageIdCounter σ + 1) (localStorage σ) (clock_reads σ) (calls σ).

Definition with_messages (ms : list ChatMessage.t) (σ : Dash) : Dash :=
  mkDash (user σ) (projects σ) (currentProject σ) ms
    (isBuilding σ) (generatedCode σ) (generationAttemptFailed σ)
    (messageIdCounter σ) (localStorage σ) (clock_reads σ) (calls σ).

Definition with_isBuilding (b : bool) (σ : Dash) : Dash :=
  mkDash (user σ) (projects σ) (currentProject σ) (messages σ)
    b (generatedCode σ) (generationAttemptFailed σ)
    (messageIdCounter σ) (localStorage σ) (clock_reads σ) (calls σ).

Definition with_currentProject (p : option Project.t) (σ : Dash) : Dash :=
  mkDash (user σ) (projects σ) p (messages σ)
    (isBuilding σ) (generatedCode σ) (generationAttemptFailed σ)
    (messageIdCounter σ) (localStorage σ) (clock_reads σ) (calls σ).

Definition with_generatedCode (g : option (string * string)) (σ : Dash) : Dash :=
  mkDash (user σ) (projects σ) (currentProject σ) (messages σ)
    (isBuilding σ) g (generationAttemptFailed σ)
    (messageIdCounter σ) (localStorage σ) (clock_reads σ) (calls σ).

Definition with_generationAttemptFailed (n : Z) (σ : Dash) : Dash :=
  mkDash (user σ) (projects σ) (currentProject σ) (messages σ)
    (isBuilding σ) (generatedCode σ) n
    (messageIdCounter σ) (localStorage σ) (clock_reads σ) (calls σ).

Definition with_localStorage (ls : gmap string string) (σ : Dash) : Dash :=
  mkDash (user σ) (projects σ) (currentProject σ) (messages σ)
    (isBuilding σ) (generatedCode σ) (generationAttemptFailed σ)
    (messageIdCounter σ) ls (clock_reads σ) (calls σ).

Definition with_clock_reads (n : nat) (σ : Dash) : Dash :=
  mkDash (user σ) (projects σ) (currentProject σ) (messages σ)
    (isBuilding σ) (generatedCode σ) (generationAttemptFailed σ)
    (messageIdCounter σ) (localStorage σ) n (calls σ).

Definition logged (c : Call) (σ : Dash) : Dash :=
  mkDash (user σ) (projects σ) (currentProject σ) (messages σ)
    (isBuilding σ) (generatedCode σ) (generationAttemptFailed σ)
    (messageIdCounter σ) (localStorage σ) (clock_reads σ) (calls σ ++ [c]).

(** The id that [generateUniqueMessageId] returns from [σ]. *)
Definition next_id (σ : Dash) : string :=
  JsString.of_number (Date_now env (clock_reads σ)) +:+ "_"
    +:+ JsString.of_number (messageIdCounter σ + 1).

(** The message that [post] builds from [σ]. *)
Definition next_message (content : string) (isUser : bool)
    (projectUid taskType : option string) (σ : Dash) : ChatMessage.t :=
  ChatMessage.mk (next_id σ) content (Date_now env (S (clock_reads σ))) isUser projectUid taskType.

(** The state after [post]. *)
Definition posted (content : string) (isUser : bool)
    (projectUid taskType : option string) (σ : Dash) : Dash :=
  with_messages (messages σ ++ [next_message content isUser projectUid taskType σ])
    (ticked (ticked (counted σ))).

End Steps.

(** [wp] for the handlers that also call analytics. *)
Definition wp_page {A} (m : PageM A) (s : Page) (Q : Outcome A → Page → Prop) : Prop :=
  Q (m s).1 (m s).2.

(** What [updateProjects_by_uid uid f] makes of one project. *)
Definition rewritten (uid : string) (f : Project.t → string → Project.t)
    (p p' : Project.t) : Prop :=
  if Project.uid p === uid then ∃ t, p' = f p t else p' = p.

(** ** The status vocabulary in a realm

    [statusMap[status]] is a read with a key chosen at run time.  When the
    table has no own property of that name the read goes on to
    [Object.prototype], an object that every script of the page shares and
    can write: its contents are state outside the function.  [Js.get] above
    fixes that object to what the language puts there; here it is a
    parameter.  [isTaskCompleted] and [isTaskError] make no such read: they
    compare their arguments with string literals ([TASK_STATUS] is declared
    [as const]). *)

Module Realm.

(** A value stored on [Object.prototype].  Functions and objects are told
    apart by a name; of the numbers only the integers and [NaN] are
    carried, which is all that [ToBoolean] tells apart. *)
Inductive Any : Type :=
| undefined
| null
| boolean (b : bool)
| number (n : Z)
| not_a_number
| text (s : string)
| object (name : string).

(** [ToBoolean]. *)
Global Instance Any_truthy : Js.Truthy Any := λ v,
  match v with
  | undefined | null | not_a_number => false
  | boolean b => b
  | number n => negb (n =? 0)
  | text s => Js.truthy s
  | object _ => true
  end.

(** A property of [Object.prototype]: a data property holds a value, an
    accessor property has a getter, which is called with the object that
    was read as receiver and returns a value or throws. *)
Inductive Property : Type :=
| data (v : Any)
| accessor (getter : Outcome Any).

(** The own properties of [Object.prototype]; its own prototype is
    [null]. *)
Definition t : Type := gmap string Property.

(** What the language puts under a key of [Object.prototype]: a built-in
    function, and under ["__proto__"] an accessor whose getter returns the
    prototype of the receiver, [Object.prototype] itself for an object
    literal. *)
Definition built_in (k : string) : Any :=
  if k === "__proto__" then object "Object.prototype" else object k.

Definition standard : t :=
  list_to_map ((λ k, (k, if k === "__proto__" then accessor (Returned (built_in k))
                         else data (built_in k))) <$> Js.Object_prototype).

(** What a read [o[k]] can produce besides [undefined]. *)
Inductive value (A : Type) : Type :=
| Own (a : A)
| Inherited (v : Any).
Global Arguments Own {A} a.
Global Arguments Inherited {A} v.

Global Instance value_truthy {A} `{Js.Truthy A} : Js.Truthy (value A) :=
  λ v, match v with Own a => Js.truthy a | Inherited v => Js.truthy v end.

(** [o[k]] for an object literal with own properties [o]: own properties
    first, then [Object.prototype], else [undefined]. *)
Definition get {A} (w : t) (o : gmap string A) (k : string) : Outcome (option (value A)) :=
  match o !! k with
  | Some a => Returned (Some (Own a))
  | None =>
      match w !! k with
      | Some (data v) => Returned (Some (Inherited v))
      | Some (accessor (Returned v)) => Returned (Some (Inherited v))
      | Some (accessor (Threw e)) => Threw e
      | None => Returned None
      end
  end.

(** [l || r]. *)
Definition or_else {A} `{Js.Truthy A} (l : option (value A)) (r : A) : value A :=
  match l with
  | Some v => if Js.truthy v then v else Own r
  | None => Own r
  end.

(** [getStatusDisplayName]. *)
Definition getStatusDisplayName (w : t) (status : string) : Outcome (value string) :=
  match get w displayName_statusMap status with
  | Returned l => Returned (or_else l status)
  | Threw e => Threw e
  end.

(** [getProgressFromStatus]. *)
Definition getProgressFromStatus (w : t) (status : string) : Outcome (value Progress) :=
  match get w progress_statusMap status with
  | Returned l => Returned (or_else l default_progress)
  | Threw e => Threw e
  end.

Inductive Result : Type :=
| result_boolean (b : bool)
| result_displayName (v : value string)
| result_progress (v : value Progress).

(** The four functions in a realm. *)
Definition eval (w : t) (c : Invocation) : Outcome Result :=
  match c with
  | call_isTaskCompleted status taskType =>
      Returned (result_boolean (isTaskCompleted status taskType))
  | call_isTaskError status => Returned (result_boolean (isTaskError status))
  | call_getStatusDisplayName status =>
      match getStatusDisplayName w status with
      | Returned v => Returned (result_displayName v)
      | Threw e => Threw e
      end
  | call_getProgressFromStatus status =>
      match getProgressFromStatus w status with
      | Returned v => Returned (result_progress v)
      | Threw e => Threw e
      end
  end.

(** The values of [Js.get] as values in the standard realm. *)
Definition of_value {A} (v : Js.value A) : value A :=
  match v with
  | Js.Own a => Own a
  | Js.Inherited k => Inherited (built_in k)
  end.

End Realm.

(** The results of [run] as results in the standard realm. *)
Definition in_standard_realm (r : Result) : Realm.Result :=
  match r with
  | result_boolean b => Realm.result_boolean b
  | result_displayName v => Realm.result_displayName (Realm.of_value v)
  | result_progress v => Realm.result_progress (Realm.of_value v)
  end.

(** ** More sample inputs *)

Module Scenario.

(** A backend that cannot be reached: every operation of the hook rejects. *)
Definition offline : Env :=
  mkEnv (Date_now Sample.env) (toISOString Sample.env)
    (λ _ _ ps, (Threw (ErrorObject "Network error"), ps))
    (λ _ ps, (Threw (ErrorObject "Network error"), ps))
    (λ _ _ ps, (Threw (ErrorObject "Network error"), ps))
    (λ _ ps, (Threw (ErrorObject "Network error"), ps))
    (λ _ _, None).

(** A browser whose storage is full: every [setItem] throws. *)
Definition storage_full : Env :=
  mkEnv (Date_now Sample.env) (toISOString Sample.env)
    (sendChatMessage Sample.env) (createProject Sample.env)
    (buildContract Sample.env) (deployContract Sample.env)
    (λ _ _, Some (ErrorObject "QuotaExceededError")).

(** A clock that stands still: every reading falls in the same
    millisecond. *)
Definition standing_clock : Env :=
  mkEnv (λ _, 1700000000000) (toISOString Sample.env)
    (sendChatMessage Sample.env) (createProject Sample.env)
    (buildContract Sample.env) (deployContract Sample.env)
    (λ _ _, None).

(** A project that the backend sent with an empty [bummUid]. *)
Definition untagged : Project.t :=
  Project.mk "project_8" (Some "") (Some "Escrow") "in-progress" (Some "build")
    "2024-03-01T00:00:00.000Z" "2024-03-01T00:00:00.000Z" false false None None None.

(** A backend whose [buildContract] resolves with that project. *)
Definition untagged_backend : Env :=
  mkEnv (Date_now Sample.env) (toISOString Sample.env)
    (sendChatMessage Sample.env) (createProject Sample.env)
    (λ _ _ ps, (Returned untagged, ps)) (deployContract Sample.env)
    (λ _ _, None).

Definition hello : ChatMessage.t :=
  ChatMessage.mk "1699999999000_1" "hello" 1699999999001 true None None.

Definition welcome : ChatMessage.t :=
  ChatMessage.mk "1699999999002_2" "Hi! What shall we build?" 1699999999003 false None None.

(** Signed in, with no project selected. *)
Definition no_project : Dash :=
  mkDash (Some Sample.alice) [Sample.vault; Sample.token] None [] false None 0 0 ∅ 0 [].

(** Signed in, the token project selected, two messages in the chat. *)
Definition chatting : Dash :=
  mkDash (Some Sample.alice) [Sample.vault; Sample.token] (Some Sample.token)
    [hello; welcome] false None 0 2 ∅ 0 [].



(** A serialiser that knows one chat. *)
Definition json : Json :=
  mkJson (λ ms, if bool_decide (ms = [hello; welcome]) then "[hello,welcome]" else "[]")
         (λ s, if bool_decide (s = "[hello,welcome]") then Some [hello; welcome]
               else if bool_decide (s = "[]") then Some [] else None).

End Scenario.
(** * Properties *)

(** ** Runs on sample inputs *)

Example getStatusDisplayName_new : getStatusDisplayName "new" = Js.Own "New".
Proof. vm_compute. reflexivity. Qed.

Example getStatusDisplayName_queued : getStatusDisplayName "queued" = Js.Own "queued".
Proof. vm_compute. reflexivity. Qed.

Example getProgressFromStatus_built :
  getProgressFromStatus "built" = Js.Own (mkProgress "completed" 100 "Build completed!").
Proof. vm_compute. reflexivity. Qed.

Example getProgressFromStatus_toString :
  getProgressFromStatus "toString" = Js.Inherited "toString".
Proof. vm_compute. reflexivity. Qed.

Example trim_spaces : JsString.trim "  a b  " = "a b".
Proof. vm_compute. reflexivity. Qed.

Example trim_nbsp_ls : JsString.trim (JsString.utf8 [0xC2; 0xA0; 0x20; 0xE2; 0x80; 0xA8]%N) = "".
Proof. vm_compute. reflexivity. Qed.

Example includes_fix :
  JsString.includes (JsString.toLowerCase "Please FIX it") "fix" = true.
Proof. vm_compute. reflexivity. Qed.

Example handleBuild_sample_calls :
  calls (handleBuild Sample.env "program" Sample.signed_in).2 =
    [ buildContract_call "program" (Some "project_7");
      trackTaskStatus_call "project_7" "build"
        (BuildCallbacks "1700000000000_1" Sample.token) "bumm-7" ].
Proof. vm_compute. reflexivity. Qed.

Example handleSendMessage_sample_calls :
  calls (handleSendMessage Sample.env "a token please" None Sample.signed_in).2 =
    [ sendChatMessage_call "a token please" (Some "bumm-7");
      trackTaskStatus_call "project_7" "generate"
        (GenerateCallbacks "1700000000004_3" (in_progress Sample.token "bumm-9")) "bumm-9" ].
Proof. vm_compute. reflexivity. Qed.

Example handleDuplicateProject_sample :
  head (projects (handleDuplicateProject Sample.env Sample.vault Sample.signed_in).2) =
    Some (Project.mk "project_1700000000000" None (Some "Vault (Copy)") "deployed" None
            "t1700000000001" "t1700000000002" false false (Some "Vau1t111") None None).
Proof. vm_compute. reflexivity. Qed.


(** ** The status vocabulary *)

Lemma strict_eq_true (a b : string) : (a === b) = true ↔ a = b.
Proof. unfold Js.strict_eq. apply bool_decide_eq_true. Qed.

Lemma strict_eq_false (a b : string) : (a === b) = false ↔ a ≠ b.
Proof. unfold Js.strict_eq. apply bool_decide_eq_false. Qed.

(** C1: [isTaskCompleted] is true exactly for generate at "generated" or
    "deployed", audit at "audited", build at "built" and deploy at
    "deployed", and false for every other status and task type; in
    particular it is false for "generated" under audit. *)
Theorem isTaskCompleted_spec :
  (∀ status taskType : string,
     isTaskCompleted status taskType = true ↔
       (taskType = "generate" ∧ (status = "generated" ∨ status = "deployed"))
       ∨ (taskType = "audit" ∧ status = "audited")
       ∨ (taskType = "build" ∧ status = "built")
       ∨ (taskType = "deploy" ∧ status = "deployed"))
  ∧ isTaskCompleted "generated" "audit" = false.
Proof.
  split; [|reflexivity].
  intros status taskType. unfold isTaskCompleted.
  destruct (taskType === "generate") eqn:Eg;
    [apply strict_eq_true in Eg; subst
    |apply strict_eq_false in Eg; destruct (taskType === "audit") eqn:Ea;
     [apply strict_eq_true in Ea; subst
     |apply strict_eq_false in Ea; destruct (taskType === "build") eqn:Eb;
      [apply strict_eq_true in Eb; subst
      |apply strict_eq_false in Eb; destruct (taskType === "deploy") eqn:Ed;
       [apply strict_eq_true in Ed; subst|apply strict_eq_false in Ed]]]];
    rewrite ?orb_true_iff, ?strict_eq_true;
    unfold TASK_STATUS.GENERATE.GENERATED, TASK_STATUS.GENERATE.DEPLOYED,
      TASK_STATUS.AUDIT.AUDITED, TASK_STATUS.BUILD.BUILT, TASK_STATUS.DEPLOY.DEPLOYED;
    intuition (try discriminate; try congruence).
Qed.

(** C2: [isTaskError] is true exactly on the literal "error"; it takes no
    task type. *)
Theorem isTaskError_spec (status : string) : isTaskError status = true ↔ status = "error".
Proof. apply strict_eq_true. Qed.

(** The three outcomes of reading a key from an object literal. *)
Lemma get_cases {A} (o : gmap string A) (k : string) :
  (∃ a, o !! k = Some a ∧ Js.get o k = Some (Js.Own a))
  ∨ (o !! k = None ∧ k ∈ Js.Object_prototype ∧ Js.get o k = Some (Js.Inherited k))
  ∨ (o !! k = None ∧ (k ∉ Js.Object_prototype) ∧ Js.get o k = None).
Proof.
  unfold Js.get. destruct (o !! k) as [a|]; [left; eauto|].
  case_bool_decide; [right; left|right; right]; done.
Qed.

(** A status that is in neither table and is not a key of
    [Object.prototype] gets the default tuple and its own name. *)
Lemma unrecognized_defaults (s : string) :
  displayName_statusMap !! s = None → progress_statusMap !! s = None →
  s ∉ Js.Object_prototype →
  getProgressFromStatus s = Js.Own default_progress ∧ getStatusDisplayName s = Js.Own s.
Proof.
  intros Hd Hp Hn. unfold getProgressFromStatus, getStatusDisplayName, Js.get.
  rewrite Hd, Hp. by rewrite bool_decide_eq_false_2.
Qed.

(** C3: at the status "constructor", which neither table lists, both
    functions return the [constructor] member inherited from
    [Object.prototype]: not the default tuple, and not the raw string. *)
Theorem unrecognized_constructor :
  displayName_statusMap !! "constructor" = None
  ∧ progress_statusMap !! "constructor" = None
  ∧ getProgressFromStatus "constructor" = Js.Inherited "constructor"
  ∧ getProgressFromStatus "constructor" ≠ Js.Own default_progress
  ∧ getStatusDisplayName "constructor" = Js.Inherited "constructor"
  ∧ getStatusDisplayName "constructor" ≠ Js.Own "constructor".
Proof. vm_compute. repeat split; discriminate. Qed.

Lemma progress_entries_bounds :
  Forall (λ e, 0 ≤ progress e.2 ≤ 100) progress_entries.
Proof. repeat constructor; simpl; lia. Qed.

(** Whenever [getProgressFromStatus] returns a tuple, its [progress] is
    between 0 and 100. *)
Lemma progress_bounds (s : string) (p : Progress) :
  getProgressFromStatus s = Js.Own p → 0 ≤ progress p ≤ 100.
Proof.
  unfold getProgressFromStatus.
  destruct (get_cases progress_statusMap s) as [(a & Ha & ->)|[(_ & _ & ->)|(_ & _ & ->)]]; simpl.
  - intros [= <-]. apply elem_of_list_to_map_2 in Ha.
    pose proof progress_entries_bounds as HF. rewrite Forall_forall in HF.
    apply (HF (s, a) Ha).
  - discriminate.
  - intros [= <-]. simpl. lia.
Qed.

(** Away from the keys of [Object.prototype] the [progress] read is a number
    between 0 and 100. *)
Lemma progress_of_status_bounds (s : string) :
  s ∉ Js.Object_prototype → ∃ n, progress_of_status s = Some n ∧ 0 ≤ n ≤ 100.
Proof.
  intros Hn. unfold progress_of_status.
  destruct (getProgressFromStatus s) as [p|k] eqn:E.
  - exists (progress p). split; [done|]. by eapply progress_bounds.
  - exfalso. unfold getProgressFromStatus in E.
    destruct (get_cases progress_statusMap s) as [(a & _ & G)|[(_ & Hin & _)|(_ & _ & G)]];
      [rewrite G in E; discriminate|done|rewrite G in E; discriminate].
Qed.

(** C5: at the status "constructor" the value returned by
    [getProgressFromStatus] is the function inherited from
    [Object.prototype], and its [progress] is [undefined]: no integer between
    0 and 100. *)
Theorem progress_of_constructor_undefined :
  getProgressFromStatus "constructor" = Js.Inherited "constructor"
  ∧ progress_of_status "constructor" = None
  ∧ ¬ (∃ n, progress_of_status "constructor" = Some n ∧ 0 ≤ n ≤ 100).
Proof. vm_compute. split; [done|]. split; [done|]. intros (n & [=] & _). Qed.

(** C9: "initialized" is one of the generate statuses and has a display
    name, but no entry in the progress table, so its progress is the default
    tuple. *)
Theorem initialized_has_no_progress_entry :
  "initialized" ∈ TASK_STATUS.GENERATE.values
  ∧ TASK_STATUS.GENERATE.INITIALIZED = "initialized"
  ∧ progress_statusMap !! "initialized" = None
  ∧ getProgressFromStatus "initialized" = Js.Own (mkProgress "initializing" 0 "Processing...")
  ∧ getStatusDisplayName "initialized" = Js.Own "Initialized".
Proof. split; [apply list_elem_of_In; vm_compute; tauto|]. vm_compute. done. Qed.

(** *** In a realm *)

(** The standard realm, key by key. *)
Lemma standard_lookup (k : string) :
  Realm.standard !! k =
    if bool_decide (k ∈ Js.Object_prototype)
    then Some (if k === "__proto__" then Realm.accessor (Returned (Realm.built_in k))
               else Realm.data (Realm.built_in k))
    else None.
Proof.
  case_bool_decide as Hk.
  - unfold Js.Object_prototype in Hk.
    repeat (apply elem_of_cons in Hk as [->|Hk]; [vm_compute; reflexivity|]).
    by apply elem_of_nil in Hk.
  - apply not_elem_of_list_to_map_1. by rewrite <- list_fmap_compose, list_fmap_id.
Qed.

(** In the standard realm a read is the read of [Js.get]. *)
Lemma get_standard {A} (o : gmap string A) (k : string) :
  Realm.get Realm.standard o k = Returned (Realm.of_value <$> Js.get o k).
Proof.
  unfold Realm.get, Js.get. destruct (o !! k) as [a|]; [done|].
  rewrite standard_lookup. case_bool_decide; [|done].
  by destruct (k === "__proto__").
Qed.

Lemma or_else_standard {A} `{Js.Truthy A} (l : option (Js.value A)) (r : A) :
  Realm.or_else (Realm.of_value <$> l) r = Realm.of_value (Js.or_else l r).
Proof.
  destruct l as [[a|k]|]; [| |done].
  - unfold Realm.or_else, Js.or_else. cbn [fmap option_fmap option_map Realm.of_value].
    change (Js.truthy (Realm.Own a)) with (Js.truthy a).
    change (Js.truthy (Js.Own a)) with (Js.truthy a).
    by destruct (Js.truthy a).
  - unfold Realm.or_else, Js.or_else. cbn [fmap option_fmap option_map Realm.of_value].
    change (Js.truthy (Js.Inherited k)) with true.
    change (Js.truthy (Realm.Inherited (Realm.built_in k)))
      with (Js.truthy (Realm.built_in k)).
    unfold Realm.of_value, Realm.built_in. by destruct (k === "__proto__").
Qed.

(** In the standard realm the four functions are the functions above. *)
Lemma eval_standard (c : Invocation) :
  Realm.eval Realm.standard c = Returned (in_standard_realm (run c)).
Proof.
  destruct c as [s t|s|s|s]; simpl; [done|done| |].
  - unfold Realm.getStatusDisplayName, getStatusDisplayName.
    by rewrite get_standard, or_else_standard.
  - unfold Realm.getProgressFromStatus, getProgressFromStatus.
    by rewrite get_standard, or_else_standard.
Qed.





(** ** Strings *)

Lemma strip_prefix_app (p s : string) : JsString.strip_prefix p (p +:+ s) = Some s.
Proof.
  induction p as [|a p IH]; simpl; [done|]. by rewrite bool_decide_eq_true_2.
Qed.

(** No white space encoding is a prefix of another, so the first white space
    character of a string is found whatever follows it. *)
Lemma strip_one_WhiteSpace (w rest : string) :
  w ∈ JsString.WhiteSpace → JsString.strip_one JsString.WhiteSpace (w +:+ rest) = Some rest.
Proof.
  intros Hin. unfold JsString.WhiteSpace in Hin. simpl in Hin.
  repeat (apply elem_of_cons in Hin as [->|Hin]; [reflexivity|]).
  by apply elem_of_nil in Hin.
Qed.

Lemma strip_all_white_space (ws : list string) (fuel : nat) :
  Forall (λ w, w ∈ JsString.WhiteSpace) ws → (length ws ≤ fuel)%nat →
  JsString.strip_all fuel JsString.WhiteSpace (foldr String.app "" ws) = "".
Proof.
  intros Hws. revert fuel. induction Hws as [|w ws Hw _ IH]; intros fuel Hlen.
  - by destruct fuel.
  - destruct fuel as [|fuel]; [simpl in Hlen; lia|].
    cbn [foldr JsString.strip_all].
    rewrite strip_one_WhiteSpace by done. apply IH. simpl in Hlen. lia.
Qed.

Lemma WhiteSpace_nonempty (w : string) : w ∈ JsString.WhiteSpace → (1 ≤ String.length w)%nat.
Proof.
  intros Hin. unfold JsString.WhiteSpace in Hin. simpl in Hin.
  repeat (apply elem_of_cons in Hin as [->|Hin]; [simpl; lia|]).
  by apply elem_of_nil in Hin.
Qed.

Lemma string_length_app (a b : string) :
  String.length (a +:+ b) = (String.length a + String.length b)%nat.
Proof. induction a as [|c a IH]; simpl; [done|]. by rewrite IH. Qed.

Lemma white_space_length (ws : list string) :
  Forall (λ w, w ∈ JsString.WhiteSpace) ws →
  (length ws ≤ String.length (foldr String.app "" ws))%nat.
Proof.
  induction 1 as [|w ws Hw _ IH]; simpl; [lia|].
  rewrite string_length_app. apply WhiteSpace_nonempty in Hw. lia.
Qed.

(** [trim] leaves nothing of a string made of white space. *)
Lemma trim_white_space_only (s : string) :
  JsString.white_space_only s → JsString.trim s = "".
Proof.
  intros (ws & Hws & ->). unfold JsString.trim, JsString.trimStart.
  rewrite strip_all_white_space; [done|done|]. by apply white_space_length.
Qed.

(** ** Rules for running handlers *)

Section Rules.

Variable env : Env.

Lemma wp_ret {A} (a : A) (σ : Dash) (Q : Outcome A → Dash → Prop) :
  Q (Returned a) σ → wp (mret a) σ Q.
Proof. done. Qed.

Lemma wp_throw {A} (e : Thrown) (σ : Dash) (Q : Outcome A → Dash → Prop) :
  Q (Threw e) σ → wp (throw e) σ Q.
Proof. done. Qed.

Lemma wp_bind {A B} (m : M A) (f : A → M B) (σ : Dash) (Q : Outcome B → Dash → Prop) :
  wp m σ (λ o σ', match o with
                  | Returned a => wp (f a) σ' Q
                  | Threw e => Q (Threw e) σ'
                  end) →
  wp (m ≫= f) σ Q.
Proof. unfold wp, mbind, M_bind. by destruct (m σ) as [[a|e] σ']. Qed.

Lemma wp_try_catch {A} (body : M A) (handler : Thrown → M A) (σ : Dash)
    (Q : Outcome A → Dash → Prop) :
  wp body σ (λ o σ', match o with
                     | Returned a => Q (Returned a) σ'
                     | Threw e => wp (handler e) σ' Q
                     end) →
  wp (try_catch body handler) σ Q.
Proof. unfold wp, try_catch. by destruct (body σ) as [[a|e] σ']. Qed.

Lemma wp_get_state (σ : Dash) (Q : Outcome Dash → Dash → Prop) :
  Q (Returned σ) σ → wp get_state σ Q.
Proof. done. Qed.

Lemma quiet_refl (σ : Dash) : quiet σ σ 0.
Proof. unfold quiet, evolves. by rewrite app_nil_r. Qed.

Ltac solve_evolves :=
  unfold quiet, evolves; cbn; rewrite ?app_nil_r; repeat split; reflexivity.

Lemma wp_read_clock (σ : Dash) (Q : Outcome Z → Dash → Prop) :
  (∀ σ', quiet σ σ' 1 → Q (Returned (Date_now env (clock_reads σ))) σ') →
  wp (read_clock env) σ Q.
Proof. intros H. apply H. solve_evolves. Qed.

Lemma wp_new_Date_toISOString (σ : Dash) (Q : Outcome string → Dash → Prop) :
  (∀ σ', quiet σ σ' 1 →
     Q (Returned (toISOString env (Date_now env (clock_reads σ)))) σ') →
  wp (new_Date_toISOString env) σ Q.
Proof. intros H. apply H. solve_evolves. Qed.

Lemma wp_generateUniqueMessageId (σ : Dash) (Q : Outcome string → Dash → Prop) :
  (∀ id σ', quiet σ σ' 1 → Q (Returned id) σ') →
  wp (generateUniqueMessageId env) σ Q.
Proof. intros H. apply H. solve_evolves. Qed.

Lemma wp_append_message (id content : string) (isUser : bool)
    (projectUid taskType : option string) (σ : Dash) (Q : Outcome unit → Dash → Prop) :
  (∀ σ', quiet σ σ' 1 → Q (Returned tt) σ') →
  wp (append_message env (mret id) (λ _, content) isUser projectUid taskType) σ Q.
Proof. intros H. apply H. solve_evolves. Qed.

Lemma wp_post (content : string) (isUser : bool) (projectUid taskType : option string)
    (σ : Dash) (Q : Outcome unit → Dash → Prop) :
  (∀ σ', quiet σ σ' 2 → Q (Returned tt) σ') →
  wp (post env content isUser projectUid taskType) σ Q.
Proof. intros H. apply H. solve_evolves. Qed.

Lemma wp_addAIMessage (content : string) (σ : Dash) (Q : Outcome unit → Dash → Prop) :
  (∀ σ', quiet σ σ' 2 → Q (Returned tt) σ') →
  wp (addAIMessage env content) σ Q.
Proof. apply wp_post. Qed.

Lemma wp_setIsBuilding (b : bool) (σ : Dash) (Q : Outcome unit → Dash → Prop) :
  (∀ σ', quiet σ σ' 0 → Q (Returned tt) σ') → wp (setIsBuilding b) σ Q.
Proof. intros H. apply H. solve_evolves. Qed.

Lemma wp_setGenerationAttemptFailed (f : Z → Z) (σ : Dash) (Q : Outcome unit → Dash → Prop) :
  (∀ σ', quiet σ σ' 0 → Q (Returned tt) σ') → wp (setGenerationAttemptFailed f) σ Q.
Proof. intros H. apply H. solve_evolves. Qed.


Lemma wp_updateProjects (f : list Project.t → list Project.t) (σ : Dash)
    (Q : Outcome unit → Dash → Prop) :
  (∀ σ', evolves σ σ' (f (projects σ)) (currentProject σ) [] 0 → Q (Returned tt) σ') →
  wp (updateProjects f) σ Q.
Proof. intros H. apply H. solve_evolves. Qed.

Lemma wp_log_call (c : Call) (σ : Dash) (Q : Outcome unit → Dash → Prop) :
  (∀ σ', evolves σ σ' (projects σ) (currentProject σ) [c] 0 → Q (Returned tt) σ') →
  wp (log_call c) σ Q.
Proof. intros H. apply H. solve_evolves. Qed.

Lemma wp_trackTaskStatus (projectUid taskType : string) (cb : Callbacks) (bummUid : string)
    (σ : Dash) (Q : Outcome unit → Dash → Prop) :
  (∀ σ', evolves σ σ' (projects σ) (currentProject σ)
           [trackTaskStatus_call projectUid taskType cb bummUid] 0 →
         Q (Returned tt) σ') →
  wp (trackTaskStatus projectUid taskType cb bummUid) σ Q.
Proof. apply wp_log_call. Qed.


(** Two steps in a row. *)
Lemma evolves_trans (σ σ1 σ2 : Dash) ps1 cur1 cs1 n1 ps2 cur2 cs2 n2 :
  evolves σ σ1 ps1 cur1 cs1 n1 → evolves σ1 σ2 ps2 cur2 cs2 n2 →
  evolves σ σ2 ps2 cur2 (cs1 ++ cs2) (n2 + n1).
Proof.
  intros (U1 & P1 & C1 & L1 & K1) (U2 & P2 & C2 & L2 & K2). unfold evolves.
  rewrite U2, U1, P2, C2, L2, L1, K2, K1, app_assoc. repeat split; try done. lia.
Qed.


Lemma quiet_trans (σ σ1 σ2 : Dash) (n m : nat) :
  quiet σ σ1 n → quiet σ1 σ2 m → quiet σ σ2 (m + n).
Proof.
  unfold quiet. intros E1 E2. pose proof E1 as (_ & P1 & C1 & _).
  rewrite P1, C1 in E2. apply (evolves_trans _ _ _ _ _ _ _ _ _ _ _ E1 E2).
Qed.

Lemma wp_setGeneratedCode (g : option (string * string)) (σ : Dash)
    (Q : Outcome unit → Dash → Prop) :
  (∀ σ', quiet σ σ' 0 → Q (Returned tt) σ') → wp (setGeneratedCode g) σ Q.
Proof. intros H. apply H. solve_evolves. Qed.

(** [try { localStorage.setItem(k, v) } catch (e) { console.warn(...) }]. *)
Lemma wp_try_setItem (k v : string) (σ : Dash) (Q : Outcome unit → Dash → Prop) :
  (∀ σ', quiet σ σ' 0 → Q (Returned tt) σ') →
  wp (try_catch (localStorage_setItem env k v) (λ _, mret tt)) σ Q.
Proof.
  intros H. unfold wp, try_catch, localStorage_setItem.
  destruct (setItem_throws env k v); cbn; apply H; solve_evolves.
Qed.

(** The updater of the generate completion callback rewrites the projects
    that have the tracked uid and no others. *)
Lemma wp_map_generated (uid : string) (l : list Project.t) (σ : Dash)
    (Q : Outcome (list Project.t) → Dash → Prop) :
  (∀ l' σ' n,
     Forall2 (λ p p', if Project.uid p === uid
                      then ∃ t, p' = generated p t
                      else p' = p) l l' →
     quiet σ σ' n → Q (Returned l') σ') →
  wp (mapM (λ p, if Project.uid p === uid
                 then t ← new_Date_toISOString env; mret (generated p t)
                 else mret p) l) σ Q.
Proof.
  revert σ Q. induction l as [|p l IH]; intros σ Q H.
  - apply wp_ret, (H [] σ 0%nat); [constructor|apply quiet_refl].
  - cbn [mapM]. apply wp_bind.
    destruct (Project.uid p === uid) eqn:E.
    + apply wp_bind, wp_new_Date_toISOString. intros σ1 E1.
      apply wp_ret, wp_bind, IH. intros l' σ2 n F E2. apply wp_ret.
      apply (H (_ :: l') σ2 (n + 1)%nat); [|by eapply quiet_trans].
      constructor; [|done]. rewrite E. eauto.
    + apply wp_ret, wp_bind, IH. intros l' σ2 n F E2. apply wp_ret.
      apply (H (p :: l') σ2 n); [|done]. constructor; [|done]. by rewrite E.
Qed.

End Rules.

(** ** The handlers *)

Section Handlers.

Variable env : Env.

(** Run one step of a handler with the rule [lem]. *)
Ltac step lem := cbn beta iota; first [apply lem | apply wp_bind; apply lem].

(** Split every [evolves] fact into its equations. *)
Ltac facts :=
  unfold quiet, evolves in *;
  repeat match goal with H : _ ∧ _ |- _ => destruct H end;
  rewrite ?app_nil_r in *.

(** The calls made so far, from the chain of equations. *)
Ltac calls_chain :=
  repeat match goal with H : calls _ = _ |- _ => rewrite H; clear H end;
  rewrite <- ?app_assoc; reflexivity.

Lemma precondition_fails_iff (code : string) (σ : Dash) :
  negb (Js.truthy (user σ)) || negb (Js.truthy (JsString.trim code)) = true
  ↔ user σ = None ∨ JsString.trim code = "".
Proof.
  rewrite orb_true_iff, !negb_true_iff.
  destruct (user σ) as [u|]; simpl.
  - unfold Js.truthy, Js.string_truthy. rewrite negb_false_iff, strict_eq_true.
    split; intros [?|?]; auto; discriminate.
  - split; auto.
Qed.

(** C7: with no current user, or with code that is white space only,
    [handleBuild] and [handleDeploy] return at once ([handleDeploy] with
    [undefined]) and leave the whole state as it was: no call to
    [buildContract], [deployContract] or [trackTaskStatus], no message, no
    change to a project. *)
Theorem precondition_failure_has_no_effect (code : string) (σ : Dash) :
  user σ = None ∨ JsString.white_space_only code →
  handleBuild env code σ = (Returned tt, σ)
  ∧ handleDeploy env code σ = (Returned None, σ).
Proof.
  intros H.
  assert (negb (Js.truthy (user σ)) || negb (Js.truthy (JsString.trim code)) = true) as Hg.
  { apply precondition_fails_iff. destruct H as [?|?%trim_white_space_only]; auto. }
  unfold handleBuild, handleDeploy, mbind, M_bind, get_state. by rewrite Hg.
Qed.




(** The completion callback of the generate site rewrites the collection
    by the uid it was given as first argument: a project with another uid
    is left as it is, one with that uid gets the status "generated"; it
    makes no call. *)
Lemma onComplete_generate_keyed (id : string) (updatedProject : Project.t)
    (result : StatusResponse) (σ : Dash) :
  wp (onComplete env (GenerateCallbacks id updatedProject) result) σ (λ o σ',
    o = Returned tt
    ∧ Forall2 (λ p p', if Project.uid p === Project.uid updatedProject
                       then ∃ t, p' = generated p t
                       else p' = p) (projects σ) (projects σ')
    ∧ calls σ' = calls σ).
Proof.
  unfold onComplete. apply wp_bind.
  assert (∀ Q : Outcome unit → Dash → Prop,
            (∀ σ', quiet σ σ' 0 → Q (Returned tt) σ') →
            wp match response_code result with
               | Some code =>
                   if Js.truthy code then
                     try_catch
                       (localStorage_setItem env
                          ("bumm_contract_code_" +:+ Project.uid updatedProject) code)
                       (λ _, mret tt);;
                     setGeneratedCode (Some (Project.uid updatedProject, code))
                   else mret tt
               | None => mret tt
               end σ Q) as Hcode.
  { intros Q HQ. destruct (response_code result) as [code|];
      [|apply wp_ret, HQ, quiet_refl].
    destruct (Js.truthy code); [|apply wp_ret, HQ, quiet_refl].
    step wp_try_setItem. intros σ1 E1. step wp_setGeneratedCode. intros σ2 E2.
    apply HQ. apply (quiet_trans _ _ _ _ _ E1 E2). }
  apply Hcode. clear Hcode. intros σ1 E1.
  step wp_get_state.
  cbn beta iota. apply wp_bind, wp_map_generated. intros l' σ2 n F E2.
  step wp_updateProjects. intros σ3 E3.
  step wp_post. intros σ4 E4.
  split; [done|].
  assert (projects σ1 = projects σ) as P1 by (facts; congruence).
  rewrite P1 in F. facts. split; [congruence|calls_chain].
Qed.

Lemma handleDuplicateProject_run (project : Project.t) (σ : Dash) :
  wp (handleDuplicateProject env project) σ (λ o σ',
    o = Returned tt
    ∧ evolves σ σ'
        (duplicate project (Date_now env (clock_reads σ))
           (toISOString env (Date_now env (S (clock_reads σ))))
           (toISOString env (Date_now env (S (S (clock_reads σ))))) :: projects σ)
        (currentProject σ) [] 5).
Proof.
  unfold handleDuplicateProject. apply wp_try_catch.
  step wp_read_clock. intros σ1 E1.
  step wp_new_Date_toISOString. intros σ2 E2.
  step wp_new_Date_toISOString. intros σ3 E3.
  cbn zeta. step wp_updateProjects. intros σ4 E4.
  step wp_addAIMessage. intros σ5 E5.
  split; [done|].
  assert (clock_reads σ1 = S (clock_reads σ)) as K1 by (facts; lia).
  assert (clock_reads σ2 = S (S (clock_reads σ))) as K2 by (facts; lia).
  rewrite K1, K2 in *.
  facts. repeat split; [congruence|congruence|congruence|calls_chain|lia].
Qed.

(** C10, as amended: [handleDuplicateProject] puts one new project in
    front of the collection and leaves the entries that were there as they
    are.  The copy has [isDeployed] and [isFrozen] false and
    [contract_address] and [deployment_status] null, whatever the original
    had; its uid is "project_" followed by the clock reading, whether or
    not a project of the collection has that uid already; its name is
    the original name followed by " (Copy)", with "Untitled" standing in
    for a name that is null or empty; [created_at] and [updated_at] are
    new clock readings; the other fields, among them [status] and
    [contractAddress], are the original's. *)
Theorem handleDuplicateProject_copy (project : Project.t) (σ : Dash) :
  ∃ (σ' : Dash) (copy : Project.t),
    handleDuplicateProject env project σ = (Returned tt, σ')
    ∧ projects σ' = copy :: projects σ
    ∧ Project.isDeployed copy = false
    ∧ Project.isFrozen copy = false
    ∧ Project.contract_address copy = None
    ∧ Project.deployment_status copy = None
    ∧ Project.uid copy = "project_" +:+ JsString.of_number (Date_now env (clock_reads σ))
    ∧ Project.name copy =
        Some (match Project.name project with
              | Some n => if bool_decide (n = "") then "Untitled" else n
              | None => "Untitled"
              end +:+ " (Copy)")
    ∧ Project.created_at copy = toISOString env (Date_now env (S (clock_reads σ)))
    ∧ Project.updated_at copy = toISOString env (Date_now env (S (S (clock_reads σ))))
    ∧ Project.bummUid copy = Project.bummUid project
    ∧ Project.status copy = Project.status project
    ∧ Project.task copy = Project.task project
    ∧ Project.contractAddress copy = Project.contractAddress project.
Proof.
  pose proof (handleDuplicateProject_run project σ) as H. unfold wp in H.
  destruct (handleDuplicateProject env project σ) as [o σ']. cbn [fst snd] in H.
  destruct H as (-> & _ & P & _).
  eexists σ', _. split; [reflexivity|]. split; [exact P|].
  cbn. repeat split.
  unfold Js.or_string, Js.truthy, Js.string_truthy, Js.strict_eq.
  destruct (Project.name project) as [n|]; [|done]. by destruct (bool_decide (n = "")).
Qed.

End Handlers.

(** ** Instances *)

(** The sample run of C7: signed out, and with blank code. *)
Lemma precondition_failure_has_no_effect_witness :
  (handleBuild Sample.env "build me" Sample.signed_out = (Returned tt, Sample.signed_out)
   ∧ handleDeploy Sample.env "build me" Sample.signed_out = (Returned None, Sample.signed_out))
  ∧ (handleBuild Sample.env "  " Sample.signed_in = (Returned tt, Sample.signed_in)
     ∧ handleDeploy Sample.env "  " Sample.signed_in = (Returned None, Sample.signed_in)).
Proof.
  split.
  - apply (precondition_failure_has_no_effect Sample.env "build me" Sample.signed_out).
    left. reflexivity.
  - apply (precondition_failure_has_no_effect Sample.env "  " Sample.signed_in).
    right. exists [" "; " "]. split; [|reflexivity].
    repeat constructor; apply list_elem_of_In; vm_compute; tauto.
Defined.


(** C10 as first stated fails in two places.  On a project whose name is
    empty or null the copy is named "Untitled (Copy)", which is not the
    original name followed by " (Copy)".  And the uid is not always new:
    when two copies are made within one millisecond, the second gets the uid
    of the first, which is in the collection already. *)
Lemma handleDuplicateProject_counterexample :
  (∃ copy rest,
     projects (handleDuplicateProject Sample.env Sample.blank Sample.signed_in).2 = copy :: rest
     ∧ Project.name Sample.blank = Some ""
     ∧ Project.name copy = Some "Untitled (Copy)"
     ∧ Project.name copy ≠ Some ("" +:+ " (Copy)"))
  ∧ (∃ second first rest,
       projects (handleDuplicateProject Scenario.standing_clock Sample.token
                   (handleDuplicateProject Scenario.standing_clock Sample.token
                      Sample.signed_in).2).2 = second :: first :: rest
       ∧ Project.uid first = "project_1700000000000"
       ∧ Project.uid second = "project_1700000000000"
       ∧ Project.uid second ∈ (Project.uid <$> first :: rest)).
Proof.
  split.
  - eexists _, _. vm_compute. repeat split. discriminate.
  - eexists _, _, _. split; [vm_compute; reflexivity|].
    split; [reflexivity|]. split; [reflexivity|]. apply list_elem_of_here.
Qed.

(** * Further properties *)

(** ** The status vocabulary as a whole *)

(** The names of the task types, for case analysis. *)
Lemma isTaskCompleted_cases (s t : string) :
  isTaskCompleted s t = true →
  (t = "generate" ∧ (s = "generated" ∨ s = "deployed"))
  ∨ (t = "audit" ∧ s = "audited")
  ∨ (t = "build" ∧ s = "built")
  ∨ (t = "deploy" ∧ s = "deployed").
Proof.
  unfold isTaskCompleted.
  destruct (t === "generate") eqn:Eg; [apply strict_eq_true in Eg as ->|].
  { rewrite orb_true_iff, !strict_eq_true. auto. }
  destruct (t === "audit") eqn:Ea; [apply strict_eq_true in Ea as ->|].
  { rewrite strict_eq_true. auto. }
  destruct (t === "build") eqn:Eb; [apply strict_eq_true in Eb as ->|].
  { rewrite strict_eq_true. auto. }
  destruct (t === "deploy") eqn:Ed; [apply strict_eq_true in Ed as ->|discriminate].
  rewrite strict_eq_true. auto 6.
Qed.

(** X1: no status is both complete and an error: for every status and task
    type, [isTaskCompleted] and [isTaskError] are not both true. *)
Theorem completed_excludes_error (status taskType : string) :
  isTaskCompleted status taskType && isTaskError status = false.
Proof.
  destruct (isTaskCompleted status taskType) eqn:E; [|done].
  apply isTaskCompleted_cases in E.
  destruct E as [[_ [->| ->]]|[[_ ->]|[[_ ->]|[_ ->]]]]; reflexivity.
Qed.

(** The entries of the progress table, one by one. *)
Lemma progress_statusMap_lookup (s : string) (p : Progress) :
  progress_statusMap !! s = Some p ↔ (s, p) ∈ progress_entries.
Proof.
  split; [apply elem_of_list_to_map_2|].
  apply elem_of_list_to_map_1.
  refine (bool_decide_unpack _ _). vm_compute. exact I.
Qed.

Lemma getProgressFromStatus_own (s : string) (p : Progress) :
  getProgressFromStatus s = Js.Own p ↔
  progress_statusMap !! s = Some p
  ∨ (progress_statusMap !! s = None ∧ (s ∉ Js.Object_prototype) ∧ p = default_progress).
Proof.
  unfold getProgressFromStatus.
  destruct (get_cases progress_statusMap s) as [(a & Ha & ->)|[(Hn & Hin & ->)|(Hn & Hout & ->)]];
    simpl; rewrite ?Ha, ?Hn.
  - split; [intros [= ->]; by left|]. intros [[= ->]|(? & _)]; [done|discriminate].
  - split; [discriminate|]. intros [?|(_ & ? & _)]; [discriminate|done].
  - split; [intros [= <-]; by right|]. intros [?|(_ & _ & ->)]; [discriminate|done].
Qed.

(** The statuses at which some task is complete. *)
Lemma completed_for_some_task (status : string) :
  (∃ taskType, isTaskCompleted status taskType = true)
  ↔ status ∈ ["generated"; "deployed"; "audited"; "built"].
Proof.
  rewrite !elem_of_cons, elem_of_nil. split.
  - intros (t & Ht%isTaskCompleted_cases). tauto.
  - intros [->|[->|[->|[->|[]]]]];
      [exists "generate"|exists "deploy"|exists "audit"|exists "build"]; reflexivity.
Qed.

Lemma progress_entries_full :
  Forall (λ e : string * Progress,
            (progress e.2 = 100 ↔ stage e.2 = "completed")
            ∧ (progress e.2 = 100 ↔ e.1 ∈ ["generated"; "deployed"; "audited"; "built"]))
    progress_entries.
Proof. refine (bool_decide_unpack _ _). vm_compute. exact I. Qed.

(** X2: a status is complete for some task type exactly when its progress is
    100, and exactly when [getProgressFromStatus] puts it at the stage
    "completed". *)
Theorem completed_iff_full_progress (status : string) :
  ((∃ taskType, isTaskCompleted status taskType = true) ↔ progress_of_status status = Some 100)
  ∧ (progress_of_status status = Some 100 ↔
     ∃ p, getProgressFromStatus status = Js.Own p ∧ stage p = "completed").
Proof.
  rewrite completed_for_some_task. unfold progress_of_status.
  destruct (getProgressFromStatus status) as [p|k] eqn:E.
  - assert ((progress p = 100 ↔ stage p = "completed")
            ∧ (progress p = 100 ↔ status ∈ ["generated"; "deployed"; "audited"; "built"]))
      as [H1 H2].
    { apply getProgressFromStatus_own in E as [Hp|(Hn & _ & ->)].
      - apply progress_statusMap_lookup in Hp.
        pose proof progress_entries_full as HF. rewrite Forall_forall in HF.
        apply (HF _ Hp).
      - split; [done|]. split; [done|]. intros Hin. exfalso.
        rewrite !elem_of_cons, elem_of_nil in Hin.
        destruct Hin as [->|[->|[->|[->|[]]]]]; vm_compute in Hn; discriminate. }
    split.
    + rewrite <- H2. split; [by intros ->|by intros [= ->]].
    + split.
      * intros [= Hp]. exists p. split; [done|]. by apply H1.
      * intros (p' & [= <-] & Hs). f_equal. by apply H1.
  - split.
    + split; [|discriminate]. intros Hin. exfalso.
      rewrite !elem_of_cons, elem_of_nil in Hin.
      destruct Hin as [->|[->|[->|[->|[]]]]]; vm_compute in E; discriminate.
    + split; [discriminate|]. intros (p & [=] & _).
Qed.

Lemma progress_entries_zero :
  Forall (λ e : string * Progress,
            (progress e.2 = 0 ↔ e.1 = "error") ∧ (stage e.2 = "error" ↔ e.1 = "error"))
    progress_entries.
Proof. refine (bool_decide_unpack _ _). vm_compute. exact I. Qed.

(** X3: the stage "error" is shown for the status "error" and for no other;
    progress 0 is shown for "error" and for every status that has no entry
    in the progress table (the keys of [Object.prototype] apart, where there
    is no progress at all). *)
Theorem error_stage_and_zero_progress (status : string) :
  (isTaskError status = true ↔
     ∃ p, getProgressFromStatus status = Js.Own p ∧ stage p = "error")
  ∧ (progress_of_status status = Some 0 ↔
     status = "error"
     ∨ (progress_statusMap !! status = None ∧ status ∉ Js.Object_prototype)).
Proof.
  unfold isTaskError, progress_of_status. rewrite strict_eq_true.
  destruct (getProgressFromStatus status) as [p|k] eqn:E.
  - apply getProgressFromStatus_own in E as [Hp|(Hn & Hout & ->)].
    + pose proof Hp as Hin%progress_statusMap_lookup.
      pose proof progress_entries_zero as HF. rewrite Forall_forall in HF.
      destruct (HF _ Hin) as [H0 Hs]. simpl in H0, Hs. split.
      * rewrite <- Hs. split; [intros ?; by exists p|by intros (p' & [= <-] & ?)].
      * rewrite <- H0. split; [intros [= ?]; by left|].
        intros [?|(Hn & _)]; [by f_equal|]. rewrite Hn in Hp. discriminate.
    + split.
      * split; [intros ->; vm_compute in Hn; discriminate|].
        intros (p' & [= <-] & ?). discriminate.
      * split; [by right|done].
  - assert (progress_statusMap !! status = None ∧ status ∈ Js.Object_prototype) as [Hn Hin].
    { unfold getProgressFromStatus in E.
      destruct (get_cases progress_statusMap status)
        as [(a & _ & G)|[(? & ? & _)|(_ & _ & G)]]; [rewrite G in E; discriminate|done|].
      rewrite G in E. discriminate. }
    split.
    + split; [intros ->; vm_compute in Hn; discriminate|]. intros (p & [=] & _).
    + split; [discriminate|]. intros [->|(_ & Hout)]; [vm_compute in Hn; discriminate|done].
Qed.

Lemma displayName_entries_capitalized :
  Forall (λ e : string * string,
            e.1 ∈ all_statuses ∧ e.2 = capitalize e.1 ∧ Js.truthy e.2 = true)
    displayName_entries.
Proof. refine (bool_decide_unpack _ _). vm_compute. exact I. Qed.

Lemma all_statuses_have_names :
  Forall (λ s, is_Some (displayName_statusMap !! s)) all_statuses.
Proof. refine (bool_decide_unpack _ _). vm_compute. exact I. Qed.

(** X4: [getStatusDisplayName] on every string: a status that [TASK_STATUS]
    names is shown with its first letter in upper case; any other string is
    returned as it is, unless it is a key of [Object.prototype], where the
    inherited member comes back. *)
Theorem getStatusDisplayName_all (status : string) :
  getStatusDisplayName status =
    if bool_decide (status ∈ all_statuses) then Js.Own (capitalize status)
    else if bool_decide (status ∈ Js.Object_prototype) then Js.Inherited status
    else Js.Own status.
Proof.
  unfold getStatusDisplayName.
  destruct (get_cases displayName_statusMap status)
    as [(a & Ha & ->)|[(Hn & Hin & ->)|(Hn & Hout & ->)]]; unfold Js.or_else.
  - apply elem_of_list_to_map_2 in Ha.
    pose proof displayName_entries_capitalized as HF. rewrite Forall_forall in HF.
    destruct (HF _ Ha) as (Hall & Hc & Ht). cbn [fst snd] in Hall, Hc, Ht.
    change (Js.truthy (Js.Own a)) with (Js.truthy a).
    rewrite Ht, Hc. by rewrite bool_decide_eq_true_2.
  - change (Js.truthy (Js.Inherited status)) with true. cbn iota.
    rewrite bool_decide_eq_false_2, bool_decide_eq_true_2; [done|done|].
    intros Hall. pose proof all_statuses_have_names as HF. rewrite Forall_forall in HF.
    destruct (HF _ Hall) as [a Ha]. rewrite Ha in Hn. discriminate.
  - rewrite !bool_decide_eq_false_2; [done|done|].
    intros Hall. pose proof all_statuses_have_names as HF. rewrite Forall_forall in HF.
    destruct (HF _ Hall) as [a Ha]. rewrite Ha in Hn. discriminate.
Qed.

Lemma progress_entries_named :
  Forall (λ e : string * Progress, e.1 ∈ all_statuses ∧ e.1 ≠ "initialized") progress_entries.
Proof. refine (bool_decide_unpack _ _). vm_compute. exact I. Qed.

Lemma all_statuses_have_progress :
  Forall (λ s, s ≠ "initialized" → is_Some (progress_statusMap !! s)) all_statuses.
Proof. refine (bool_decide_unpack _ _). vm_compute. exact I. Qed.

(** X5: the progress table has an entry for every status that [TASK_STATUS]
    names except "initialized", and for nothing else. *)
Theorem progress_table_keys (status : string) :
  is_Some (progress_statusMap !! status) ↔ status ∈ all_statuses ∧ status ≠ "initialized".
Proof.
  split.
  - intros [p Hp%progress_statusMap_lookup].
    pose proof progress_entries_named as HF. rewrite Forall_forall in HF. apply (HF _ Hp).
  - intros [Hall Hne]. pose proof all_statuses_have_progress as HF.
    rewrite Forall_forall in HF. by apply HF.
Qed.

(** X6: a status at which a task is complete is one of the statuses that
    [TASK_STATUS] declares for that task type, and the task type is one of
    the four. *)
Theorem completed_status_is_declared (status taskType : string) :
  isTaskCompleted status taskType = true →
  taskType ∈ task_types ∧ status ∈ statuses_of taskType.
Proof.
  intros H%isTaskCompleted_cases.
  destruct H as [[-> [->| ->]]|[[-> ->]|[[-> ->]|[-> ->]]]];
    (split; refine (bool_decide_unpack _ _); vm_compute; exact I).
Qed.

Lemma completed_status_is_declared_witness :
  "build" ∈ task_types ∧ "built" ∈ statuses_of "build".
Proof. apply (completed_status_is_declared "built" "build"). reflexivity. Defined.

(** X7: no two endpoints of [API_ENDPOINTS] have the same path, so the
    computed keys of [API_METHODS] do not overwrite one another: its keys
    are the eleven endpoints, each with the method written for it, GET or
    POST. *)
Theorem API_METHODS_covers_endpoints :
  NoDup API_ENDPOINTS.values
  ∧ (∀ endpoint, is_Some (API_METHODS !! endpoint) ↔ endpoint ∈ API_ENDPOINTS.values)
  ∧ Forall (λ e : string * string,
              API_METHODS !! e.1 = Some e.2 ∧ (e.2 = "GET" ∨ e.2 = "POST"))
      API_METHODS_entries.
Proof.
  split; [refine (bool_decide_unpack _ _); vm_compute; exact I|].
  split; [|refine (bool_decide_unpack _ _); vm_compute; exact I].
  intros endpoint. rewrite <- elem_of_dom.
  assert (dom API_METHODS = list_to_set (C := gset string) API_ENDPOINTS.values) as ->.
  { refine (bool_decide_unpack _ _). vm_compute. exact I. }
  by rewrite elem_of_list_to_set.
Qed.

(** ** Decimal numbers and message ids *)

Lemma pretty_N_go_no_underscore (x : N) (acc : string) :
  (∀ s1 s2, acc ≠ s1 +:+ String "_" s2) →
  ∀ s1 s2, pretty_N_go x acc ≠ s1 +:+ String "_" s2.
Proof.
  revert acc. induction (N.lt_wf_0 x) as [x _ IH]; intros acc Hacc s1 s2.
  assert (x = 0 ∨ 0 < x)%N as [->|Hx] by lia.
  - rewrite pretty_N_go_0. apply Hacc.
  - rewrite pretty_N_go_step by done. apply IH.
    { by apply N.div_lt. }
    intros [|c u1] u2; simpl.
    + intros [= Hc _]. revert Hc. unfold pretty_N_char. by repeat case_match.
    + intros [= _ Hrest]. by apply Hacc in Hrest.
Qed.

Lemma of_number_no_underscore (z : Z) (s1 s2 : string) :
  JsString.of_number z ≠ s1 +:+ String "_" s2.
Proof.
  assert (∀ n s1 s2, pretty (A := N) n ≠ s1 +:+ String "_" s2) as HN.
  { intros n t1 t2. unfold pretty, pretty_N. case_decide.
    - destruct t1 as [|c [|c' t1]]; simpl; intros [=].
    - apply pretty_N_go_no_underscore. intros [|c u1] u2; simpl; intros [=]. }
  unfold JsString.of_number, pretty, pretty_Z. destruct z as [|p|p].
  - destruct s1 as [|c [|c' s1]]; simpl; intros [=].
  - apply HN.
  - destruct s1 as [|c s1]; simpl; [intros [=]|]. intros [= _ H]. by apply HN in H.
Qed.

(** Two strings without underscore, each followed by an underscore and a
    rest, are equal as wholes only if they are equal part by part. *)
Lemma underscore_split (a b c d : string) :
  (∀ s1 s2, a ≠ s1 +:+ String "_" s2) → (∀ s1 s2, c ≠ s1 +:+ String "_" s2) →
  a +:+ "_" +:+ b = c +:+ "_" +:+ d → a = c ∧ b = d.
Proof.
  change ("_" +:+ b) with (String "_" b). change ("_" +:+ d) with (String "_" d).
  revert c. induction a as [|x a IH]; intros [|y c] Ha Hc H.
  - change (String "_" b = String "_" d) in H. by injection H as ->.
  - change (String "_" b = String y (c +:+ String "_" d)) in H.
    injection H as <- _. by destruct (Hc "" c).
  - change (String x (a +:+ String "_" b) = String "_" d) in H.
    injection H as -> _. by destruct (Ha "" a).
  - change (String x (a +:+ String "_" b) = String y (c +:+ String "_" d)) in H.
    injection H as -> H. apply IH in H as [-> ->]; [done| |].
    + intros s1 s2 ->. by apply (Ha (String y s1) s2).
    + intros s1 s2 ->. by apply (Hc (String y s1) s2).
Qed.

(** X8: two ids made by [generateUniqueMessageId] are equal only when both
    the clock reading and the counter were the same; since every call
    increments the counter, two calls in a row never return the same id,
    even when the clock stands still. *)
Theorem generateUniqueMessageId_ids (env : Env) (σ σ' : Dash) :
  ((generateUniqueMessageId env σ).1 = (generateUniqueMessageId env σ').1 ↔
     Date_now env (clock_reads σ) = Date_now env (clock_reads σ')
     ∧ messageIdCounter σ = messageIdCounter σ')
  ∧ (generateUniqueMessageId env σ).1
      ≠ (generateUniqueMessageId env (generateUniqueMessageId env σ).2).1.
Proof.
  assert (∀ τ, (generateUniqueMessageId env τ).1 = Returned (next_id env τ)) as Hid by done.
  assert (∀ τ τ', next_id env τ = next_id env τ' →
            Date_now env (clock_reads τ) = Date_now env (clock_reads τ')
            ∧ messageIdCounter τ + 1 = messageIdCounter τ' + 1) as Hinj.
  { intros τ τ' H. unfold next_id in H.
    apply underscore_split in H as [H1 H2]; try apply of_number_no_underscore.
    split; by apply (inj (pretty (A := Z))). }
  split.
  - rewrite !Hid. split.
    + intros [= [H1 H2]%Hinj]. split; [done|lia].
    + intros [Hc Hn]. unfold next_id. by rewrite Hc, Hn.
  - rewrite !Hid. intros [= [_ H]%Hinj].
    cbn [messageIdCounter] in H. lia.
Qed.

(** X9: the uid that [handleDuplicateProject] gives a copy depends on the
    clock reading alone: the copies made by two runs, of whatever projects
    and from whatever states, have the same uid exactly when [Date.now()]
    gave the same value; nothing compares the uid with those already in the
    collection. *)
Theorem duplicate_uid_by_clock (env env' : Env) (p q : Project.t) (σ σ' : Dash) :
  Project.uid <$> head (projects (handleDuplicateProject env p σ).2)
    = Project.uid <$> head (projects (handleDuplicateProject env' q σ').2)
  ↔ Date_now env (clock_reads σ) = Date_now env' (clock_reads σ').
Proof.
  pose proof (handleDuplicateProject_run env p σ) as (_ & _ & -> & _).
  pose proof (handleDuplicateProject_run env' q σ') as (_ & _ & -> & _).
  cbn [head fmap option_fmap option_map duplicate Project.uid].
  split; [|by intros ->].
  intros [= H].
  change (JsString.of_number (Date_now env (clock_reads σ))
          = JsString.of_number (Date_now env' (clock_reads σ'))) in H.
  by apply (inj (pretty (A := Z))) in H.
Qed.

(** ** Running a handler step by step *)

Section Exact.

Variable env : Env.

Lemma run_post (content : string) (isUser : bool) (projectUid taskType : option string)
    (σ : Dash) (Q : Outcome unit → Dash → Prop) :
  Q (Returned tt) (posted env content isUser projectUid taskType σ) →
  wp (post env content isUser projectUid taskType) σ Q.
Proof. intros H. exact H. Qed.

Lemma run_addAIMessage (content : string) (σ : Dash) (Q : Outcome unit → Dash → Prop) :
  Q (Returned tt) (posted env content false None None σ) →
  wp (addAIMessage env content) σ Q.
Proof. intros H. exact H. Qed.

Lemma run_generateUniqueMessageId (σ : Dash) (Q : Outcome string → Dash → Prop) :
  Q (Returned (next_id env σ)) (ticked (counted σ)) →
  wp (generateUniqueMessageId env) σ Q.
Proof. intros H. exact H. Qed.

Lemma run_append_message (id : string) (content : string) (isUser : bool)
    (projectUid taskType : option string) (σ : Dash) (Q : Outcome unit → Dash → Prop) :
  Q (Returned tt)
    (with_messages
       (messages σ ++ [ChatMessage.mk id content (Date_now env (clock_reads σ))
                         isUser projectUid taskType])
       (ticked σ)) →
  wp (append_message env (mret id) (λ _, content) isUser projectUid taskType) σ Q.
Proof. intros H. exact H. Qed.

Lemma run_read_clock (σ : Dash) (Q : Outcome Z → Dash → Prop) :
  Q (Returned (Date_now env (clock_reads σ))) (ticked σ) → wp (read_clock env) σ Q.
Proof. intros H. exact H. Qed.

Lemma run_new_Date_toISOString (σ : Dash) (Q : Outcome string → Dash → Prop) :
  Q (Returned (toISOString env (Date_now env (clock_reads σ)))) (ticked σ) →
  wp (new_Date_toISOString env) σ Q.
Proof. intros H. exact H. Qed.

Lemma run_setIsBuilding (b : bool) (σ : Dash) (Q : Outcome unit → Dash → Prop) :
  Q (Returned tt) (with_isBuilding b σ) → wp (setIsBuilding b) σ Q.
Proof. intros H. exact H. Qed.

Lemma run_setMessages (f : list ChatMessage.t → list ChatMessage.t) (σ : Dash)
    (Q : Outcome unit → Dash → Prop) :
  Q (Returned tt) (with_messages (f (messages σ)) σ) → wp (setMessages f) σ Q.
Proof. intros H. exact H. Qed.

Lemma run_setCurrentProject (p : option Project.t) (σ : Dash) (Q : Outcome unit → Dash → Prop) :
  Q (Returned tt) (with_currentProject p σ) → wp (setCurrentProject p) σ Q.
Proof. intros H. exact H. Qed.

Lemma run_setCurrentProject_with (f : option Project.t → option Project.t) (σ : Dash)
    (Q : Outcome unit → Dash → Prop) :
  Q (Returned tt) (with_currentProject (f (currentProject σ)) σ) →
  wp (setCurrentProject_with f) σ Q.
Proof. intros H. exact H. Qed.

Lemma run_setGeneratedCode (g : option (string * string)) (σ : Dash)
    (Q : Outcome unit → Dash → Prop) :
  Q (Returned tt) (with_generatedCode g σ) → wp (setGeneratedCode g) σ Q.
Proof. intros H. exact H. Qed.

Lemma run_setGenerationAttemptFailed (f : Z → Z) (σ : Dash) (Q : Outcome unit → Dash → Prop) :
  Q (Returned tt) (with_generationAttemptFailed (f (generationAttemptFailed σ)) σ) →
  wp (setGenerationAttemptFailed f) σ Q.
Proof. intros H. exact H. Qed.

Lemma run_updateProjects (f : list Project.t → list Project.t) (σ : Dash)
    (Q : Outcome unit → Dash → Prop) :
  Q (Returned tt) (set_projects (f (projects σ)) σ) → wp (updateProjects f) σ Q.
Proof. intros H. exact H. Qed.

Lemma run_log_call (c : Call) (σ : Dash) (Q : Outcome unit → Dash → Prop) :
  Q (Returned tt) (logged c σ) → wp (log_call c) σ Q.
Proof. intros H. exact H. Qed.

Lemma run_trackTaskStatus (projectUid taskType : string) (cb : Callbacks) (bummUid : string)
    (σ : Dash) (Q : Outcome unit → Dash → Prop) :
  Q (Returned tt) (logged (trackTaskStatus_call projectUid taskType cb bummUid) σ) →
  wp (trackTaskStatus projectUid taskType cb bummUid) σ Q.
Proof. intros H. exact H. Qed.

Lemma run_await {A} (c : Call) (op : Hook A) (σ : Dash) (Q : Outcome A → Dash → Prop) :
  (∀ r ps, op (projects σ) = (r, ps) → Q r (set_projects ps (logged c σ))) →
  wp (await c op) σ Q.
Proof.
  intros H. unfold wp, await. cbn.
  destruct (op (projects σ)) as [r ps]. by apply H.
Qed.

Lemma run_setItem (k v : string) (σ : Dash) (Q : Outcome unit → Dash → Prop) :
  match setItem_throws env k v with
  | Some e => Q (Threw e) σ
  | None => Q (Returned tt) (with_localStorage (<[k := v]> (localStorage σ)) σ)
  end →
  wp (localStorage_setItem env k v) σ Q.
Proof.
  unfold wp, localStorage_setItem. by destruct (setItem_throws env k v).
Qed.

End Exact.

(** Bring the projections of a state written as steps from another state to
    the projections of that state. *)
Ltac fields :=
  cbn [user projects currentProject messages isBuilding generatedCode
       generationAttemptFailed messageIdCounter localStorage clock_reads calls
       posted ticked counted with_messages with_isBuilding with_currentProject
       with_generatedCode with_generationAttemptFailed with_localStorage with_clock_reads logged
       set_projects fst snd].

Ltac fields_in H :=
  cbn [user projects currentProject messages isBuilding generatedCode
       generationAttemptFailed messageIdCounter localStorage clock_reads calls
       posted ticked counted with_messages with_isBuilding with_currentProject
       with_generatedCode with_generationAttemptFailed with_localStorage with_clock_reads logged
       set_projects fst snd] in H.

(** Run one step of a handler with the rule [lem]. *)
Ltac run lem := cbn beta iota; first [apply lem | apply wp_bind; apply lem].

Section More_handlers.

Variable env : Env.

(** Every outcome of [handleDeploy]. *)
Lemma handleDeploy_outcomes (code : string) (σ : Dash) :
  wp (handleDeploy env code) σ (λ o σ',
    if negb (Js.truthy (user σ)) || negb (Js.truthy (JsString.trim code))
    then o = Returned None ∧ σ' = σ
    else
      match deployContract env code (projects σ) with
      | (Returned addr, ps) =>
          o = Returned (Some addr)
          ∧ (currentProject σ = None →
               projects σ' = ps ∧ currentProject σ' = None
               ∧ calls σ' = calls σ ++ [deployContract_call code])
          ∧ ChatMessage.content <$> messages σ' =
              (ChatMessage.content <$> messages σ)
                ++ ["Starting deployment...";
                    "Deployment successful! Your smart contract is now live on Solana. Contract address: "
                      +:+ addr]
      | (Threw e, ps) =>
          o = Threw e
          ∧ projects σ' = ps
          ∧ currentProject σ' = currentProject σ
          ∧ calls σ' = calls σ ++ [deployContract_call code]
          ∧ ChatMessage.content <$> messages σ' =
              (ChatMessage.content <$> messages σ)
                ++ ["Starting deployment..."; "Deployment failed: " +:+ error_message e]
      end).
Proof.
  unfold handleDeploy. run wp_get_state.
  destruct (negb (Js.truthy (user σ)) || negb (Js.truthy (JsString.trim code)));
    [by apply wp_ret|].
  apply wp_try_catch. run run_post. run (@run_await string). intros r ps Hop.
  fields_in Hop. rewrite Hop. destruct r as [addr|e]; cbn beta iota.
  - destruct (currentProject σ) as [cur|] eqn:Hc.
    + apply wp_bind. run run_new_Date_toISOString. run run_setCurrentProject.
      run run_updateProjects. run run_log_call. run run_post. run (@wp_ret (option string)).
      split; [done|]. split; [done|]. fields.
      by rewrite !fmap_app, <- app_assoc.
    + run (@wp_ret unit). run (@wp_ret unit). run run_post. run (@wp_ret (option string)).
      split; [done|]. split; [done|]. fields.
      by rewrite !fmap_app, <- app_assoc.
  - run run_post. run (@wp_throw (option string)).
    repeat split; try reflexivity. fields.
    by rewrite !fmap_app, <- app_assoc.
Qed.


(** Every outcome of [handleBuild]. *)
Lemma handleBuild_outcomes (code : string) (σ : Dash) :
  wp (handleBuild env code) σ (λ o σ',
    o = Returned tt
    ∧ if negb (Js.truthy (user σ)) || negb (Js.truthy (JsString.trim code))
      then σ' = σ
      else
        match buildContract env code (Project.uid <$> currentProject σ) (projects σ) with
        | (Returned project, ps) =>
            isBuilding σ' = true
            ∧ projects σ' = ps
            ∧ currentProject σ' = currentProject σ
            ∧ messages σ' =
                messages σ ++ [ChatMessage.mk (next_id env σ) "🔧 Initializing build..."
                                 (Date_now env (S (clock_reads σ))) false None None]
            ∧ calls σ' =
                calls σ ++ [buildContract_call code (Project.uid <$> currentProject σ);
                            trackTaskStatus_call (Project.uid project) "build"
                              (BuildCallbacks (next_id env σ) project)
                              (Js.or_string (Project.bummUid project) (Project.uid project))]
        | (Threw e, ps) =>
            isBuilding σ' = false
            ∧ projects σ' = ps
            ∧ currentProject σ' = currentProject σ
            ∧ ChatMessage.content <$> messages σ' =
                (ChatMessage.content <$> messages σ)
                  ++ ["🔧 Initializing build..."; "Failed to start build: " +:+ error_message e]
            ∧ calls σ' = calls σ ++ [buildContract_call code (Project.uid <$> currentProject σ)]
        end).
Proof.
  unfold handleBuild. run wp_get_state.
  destruct (negb (Js.truthy (user σ)) || negb (Js.truthy (JsString.trim code)));
    [by apply wp_ret|].
  run run_setIsBuilding. apply wp_try_catch.
  run run_generateUniqueMessageId. run run_append_message.
  run (@run_await Project.t). intros r ps Hop. fields_in Hop. rewrite Hop.
  destruct r as [project|e]; cbn beta iota.
  - run run_trackTaskStatus. split; [done|]. fields.
    repeat split; try reflexivity. by rewrite <- app_assoc.
  - run run_setIsBuilding. run run_post. split; [done|]. fields.
    repeat split; try reflexivity. by rewrite !fmap_app, <- app_assoc.
Qed.

(** Every outcome of [handleSendMessage]: it returns, the user's message is
    the first one appended, and [generationAttemptFailed] moves by
    [attempt_failed]. *)
Lemma handleSendMessage_outcomes (content : string) (currentContractCode : option string)
    (σ : Dash) :
  wp (handleSendMessage env content currentContractCode) σ (λ o σ',
    o = Returned tt
    ∧ (∃ rest, messages σ' = messages σ ++ next_message env content true None None σ :: rest)
    ∧ generationAttemptFailed σ' =
        generationAttemptFailed σ
        + attempt_failed
            (sendChatMessage env (messageToSend content currentContractCode)
               (bummUid_or_null (currentProject σ)) (projects σ)).1).
Proof.
  unfold handleSendMessage. run wp_get_state. run run_post.
  apply wp_try_catch. run (@run_await ChatResponse). intros r ps Hop.
  fields_in Hop. rewrite Hop. cbn [fst]. destruct r as [response|e]; cbn beta iota.
  2:{ run run_post. split; [done|]. fields. split; [|cbn; lia].
      eexists. rewrite <- !app_assoc. reflexivity. }
  run run_post. apply wp_bind. cbn [attempt_failed].
  destruct (bool_decide (action response = Some "generate")) eqn:Ea; cbn [negb].
  - run (@wp_ret unit). cbn beta iota.
    destruct (bumm_uid response) as [backend|]; cbn [andb].
    2:{ run (@wp_ret unit). split; [done|]. fields. split; [|lia].
        eexists. rewrite <- !app_assoc. reflexivity. }
    destruct (Js.truthy backend).
    2:{ run (@wp_ret unit). split; [done|]. fields. split; [|lia].
        eexists. rewrite <- !app_assoc. reflexivity. }
    destruct (currentProject σ) as [cur|].
    + run (@wp_ret Project.t). run run_setCurrentProject.
      run run_generateUniqueMessageId. run run_append_message. run run_trackTaskStatus.
      split; [done|]. fields. split; [|lia].
      eexists. rewrite <- !app_assoc. reflexivity.
    + run (@run_await Project.t). intros r' ps' Hop'. destruct r' as [project|e]; cbn beta iota.
      * run run_setCurrentProject.
        run run_generateUniqueMessageId. run run_append_message. run run_trackTaskStatus.
        split; [done|]. fields. split; [|lia].
        eexists. rewrite <- !app_assoc. reflexivity.
      * run run_post. split; [done|]. fields. split; [|lia].
        eexists. rewrite <- !app_assoc. reflexivity.
  - run run_setGenerationAttemptFailed. cbn beta iota.
    destruct (bumm_uid response) as [backend|]; cbn [andb];
      run (@wp_ret unit); (split; [done|]); fields; (split; [|lia]);
      eexists; rewrite <- !app_assoc; reflexivity.
Qed.


(** X10: [handleDeploy] rejects exactly when there is a user, the code is
    not blank and [deployContract] rejects, and then with the very value
    that [deployContract] threw; every other failure is impossible. *)
Theorem handleDeploy_rejects_iff (code : string) (σ : Dash) (e : Thrown) :
  (handleDeploy env code σ).1 = Threw e ↔
  is_Some (user σ) ∧ JsString.trim code ≠ ""
  ∧ ∃ ps, deployContract env code (projects σ) = (Threw e, ps).
Proof.
  pose proof (handleDeploy_outcomes code σ) as H. unfold wp in H.
  pose proof (precondition_fails_iff code σ) as Hg.
  destruct (negb (Js.truthy (user σ)) || negb (Js.truthy (JsString.trim code))).
  - destruct H as [-> _]. split; [discriminate|].
    intros ([u Hu] & Ht & _). destruct Hg as [[Hn|Hn] _]; [done|congruence|done].
  - assert (is_Some (user σ) ∧ JsString.trim code ≠ "") as [Hu Ht].
    { split.
      - destruct (user σ) as [u|] eqn:Hu; [eauto|]. destruct Hg as [_ Hg].
        by discriminate Hg; left.
      - intros Hc. destruct Hg as [_ Hg]. by discriminate Hg; right. }
    destruct (deployContract env code (projects σ)) as [[addr|e'] ps].
    + destruct H as [-> _]. split; [discriminate|]. intros (_ & _ & ps' & [=]).
    + destruct H as [-> _]. split.
      * intros [= ->]. eauto.
      * intros (_ & _ & ps' & [= -> _]). done.
Qed.

(** X11: when [deployContract] rejects, [handleDeploy] throws the same
    value again after appending "Deployment failed: " with the error's
    message; it attaches nothing: the collection is as the hook left it, the
    current project is unchanged, and no analytics call is made. *)
Theorem handleDeploy_rejection (code : string) (σ : Dash) (u : User.t) (e : Thrown)
    (ps : list Project.t) :
  user σ = Some u → JsString.trim code ≠ "" →
  deployContract env code (projects σ) = (Threw e, ps) →
  (handleDeploy env code σ).1 = Threw e
  ∧ projects (handleDeploy env code σ).2 = ps
  ∧ currentProject (handleDeploy env code σ).2 = currentProject σ
  ∧ calls (handleDeploy env code σ).2 = calls σ ++ [deployContract_call code]
  ∧ ChatMessage.content <$> messages (handleDeploy env code σ).2 =
      (ChatMessage.content <$> messages σ)
        ++ ["Starting deployment..."; "Deployment failed: " +:+ error_message e].
Proof.
  intros Hu Ht Hd. pose proof (handleDeploy_outcomes code σ) as H. unfold wp in H.
  assert (negb (Js.truthy (user σ)) || negb (Js.truthy (JsString.trim code)) = false) as Hg.
  { apply not_true_is_false. rewrite precondition_fails_iff, Hu. intros [?|?]; done. }
  by rewrite Hg, Hd in H.
Qed.

(** X12: with no project selected, a successful [handleDeploy] still returns
    the address and announces it, but records it nowhere: the collection is
    as the hook left it, there is still no current project, and no
    analytics call is made. *)
Theorem handleDeploy_without_project (code : string) (σ : Dash) (u : User.t) (addr : string)
    (ps : list Project.t) :
  user σ = Some u → JsString.trim code ≠ "" → currentProject σ = None →
  deployContract env code (projects σ) = (Returned addr, ps) →
  (handleDeploy env code σ).1 = Returned (Some addr)
  ∧ projects (handleDeploy env code σ).2 = ps
  ∧ currentProject (handleDeploy env code σ).2 = None
  ∧ calls (handleDeploy env code σ).2 = calls σ ++ [deployContract_call code]
  ∧ ChatMessage.content <$> messages (handleDeploy env code σ).2 =
      (ChatMessage.content <$> messages σ)
        ++ ["Starting deployment...";
            "Deployment successful! Your smart contract is now live on Solana. Contract address: "
              +:+ addr].
Proof.
  intros Hu Ht Hc Hd. pose proof (handleDeploy_outcomes code σ) as H. unfold wp in H.
  assert (negb (Js.truthy (user σ)) || negb (Js.truthy (JsString.trim code)) = false) as Hg.
  { apply not_true_is_false. rewrite precondition_fails_iff, Hu. intros [?|?]; done. }
  rewrite Hg, Hd in H. destruct H as (Ho & Hn & Hm). destruct (Hn Hc) as (? & ? & ?). done.
Qed.

(** X13: [handleBuild] never rejects.  When [buildContract] rejects, the
    handler returns with [isBuilding] back to false, starts no tracker, and
    appends "Failed to start build: " with the error's message after the
    "Initializing build" message, which stays in the chat. *)
Theorem handleBuild_start_failure (code : string) (σ : Dash) (u : User.t) (e : Thrown)
    (ps : list Project.t) :
  user σ = Some u → JsString.trim code ≠ "" →
  buildContract env code (Project.uid <$> currentProject σ) (projects σ) = (Threw e, ps) →
  (handleBuild env code σ).1 = Returned tt
  ∧ isBuilding (handleBuild env code σ).2 = false
  ∧ calls (handleBuild env code σ).2 =
      calls σ ++ [buildContract_call code (Project.uid <$> currentProject σ)]
  ∧ ChatMessage.content <$> messages (handleBuild env code σ).2 =
      (ChatMessage.content <$> messages σ)
        ++ ["🔧 Initializing build..."; "Failed to start build: " +:+ error_message e].
Proof.
  intros Hu Ht Hb. pose proof (handleBuild_outcomes code σ) as H. unfold wp in H.
  assert (negb (Js.truthy (user σ)) || negb (Js.truthy (JsString.trim code)) = false) as Hg.
  { apply not_true_is_false. rewrite precondition_fails_iff, Hu. intros [?|?]; done. }
  rewrite Hg, Hb in H. destruct H as (? & ? & ? & ? & ? & ?). done.
Qed.

(** X14: after a [handleBuild] that started a build, [isBuilding] is true
    and the id held by the callbacks given to [trackTaskStatus] is the id of
    the status message the handler has just appended; the progress callback
    then rewrites that message to the wrench sign and the progress message,
    and the chat keeps its length. *)
Theorem handleBuild_status_message (code : string) (σ : Dash) (u : User.t)
    (project : Project.t) (ps : list Project.t) (progress : Progress) :
  user σ = Some u → JsString.trim code ≠ "" →
  buildContract env code (Project.uid <$> currentProject σ) (projects σ)
    = (Returned project, ps) →
  ∃ m : ChatMessage.t,
    messages (handleBuild env code σ).2 = messages σ ++ [m]
    ∧ ChatMessage.content m = "🔧 Initializing build..."
    ∧ isBuilding (handleBuild env code σ).2 = true
    ∧ last (calls (handleBuild env code σ).2) =
        Some (trackTaskStatus_call (Project.uid project) "build"
                (BuildCallbacks (ChatMessage.id m) project)
                (Js.or_string (Project.bummUid project) (Project.uid project)))
    ∧ last (messages (onProgress (BuildCallbacks (ChatMessage.id m) project) progress
                        (handleBuild env code σ).2).2)
        = Some (ChatMessage.with_content m ("🔧 " +:+ message progress))
    ∧ length (messages (onProgress (BuildCallbacks (ChatMessage.id m) project) progress
                          (handleBuild env code σ).2).2)
        = length (messages (handleBuild env code σ).2).
Proof.
  intros Hu Ht Hb. pose proof (handleBuild_outcomes code σ) as H. unfold wp in H.
  assert (negb (Js.truthy (user σ)) || negb (Js.truthy (JsString.trim code)) = false) as Hg.
  { apply not_true_is_false. rewrite precondition_fails_iff, Hu. intros [?|?]; done. }
  rewrite Hg, Hb in H. destruct H as (_ & Hib & _ & _ & Hm & Hc).
  eexists. split; [exact Hm|]. split; [done|]. split; [done|].
  split; [by rewrite Hc, last_app|].
  cbn [onProgress setMessages modify snd messages ChatMessage.id]. rewrite Hm. split.
  - rewrite map_app, last_app. cbn [map last ChatMessage.id].
    unfold Js.strict_eq. by rewrite bool_decide_eq_true_2.
  - by rewrite length_map.
Qed.

(** X15: both terminal callbacks of the build call site switch [isBuilding]
    off and append one message tagged with the project's uid and 'build';
    neither touches the collection; the completion callback alone calls
    analytics, with 25 credits for 'build'. *)
Theorem build_callbacks_stop_building (id : string) (project : Project.t)
    (result : StatusResponse) (error : string) (σ : Dash) :
  let done := (onComplete env (BuildCallbacks id project) result σ).2 in
  let failed := (onError env (BuildCallbacks id project) error σ).2 in
  isBuilding done = false ∧ isBuilding failed = false
  ∧ projects done = projects σ ∧ projects failed = projects σ
  ∧ calls done = calls σ ++ [trackContractBuild_call (Project.uid project);
                             trackCreditSpend_call "build" 25 (Project.uid project)]
  ∧ calls failed = calls σ
  ∧ (∃ m, messages done = messages σ ++ [m]
          ∧ ChatMessage.projectUid m = Some (Project.uid project)
          ∧ ChatMessage.taskType m = Some "build"
          ∧ ChatMessage.content m
              = "Build completed successfully! Your Solana program is ready for deployment.")
  ∧ (∃ m, messages failed = messages σ ++ [m]
          ∧ ChatMessage.projectUid m = Some (Project.uid project)
          ∧ ChatMessage.taskType m = Some "build"
          ∧ ChatMessage.content m = "Build failed: " +:+ error).
Proof.
  intros done failed.
  assert (wp (onComplete env (BuildCallbacks id project) result) σ (λ _ σ',
            σ' = posted env
                   "Build completed successfully! Your Solana program is ready for deployment."
                   false (Some (Project.uid project)) (Some "build")
                   (with_isBuilding false
                      (logged (trackCreditSpend_call "build" 25 (Project.uid project))
                         (logged (trackContractBuild_call (Project.uid project)) σ))))) as Hd.
  { unfold onComplete. run run_log_call. run run_log_call. run run_setIsBuilding.
    run run_post. done. }
  assert (wp (onError env (BuildCallbacks id project) error) σ (λ _ σ',
            σ' = posted env ("Build failed: " +:+ error)
                   false (Some (Project.uid project)) (Some "build")
                   (with_isBuilding false σ))) as Hf.
  { unfold onError. run run_setIsBuilding. run run_post. done. }
  unfold wp in Hd, Hf. fold done in Hd. fold failed in Hf. rewrite Hd, Hf. fields.
  repeat split; try reflexivity.
  - by rewrite <- app_assoc.
  - eexists. repeat split; reflexivity.
  - eexists. repeat split; reflexivity.
Qed.

(** X16: [handleSendMessage] never rejects, whatever [sendChatMessage] and
    [createProject] do; the user's message is the first thing it appends;
    and [generationAttemptFailed] goes up by one exactly when
    [sendChatMessage] resolved with an action other than 'generate', so not
    when the call rejected and not when the action was 'generate' without a
    [bumm_uid]. *)
Theorem handleSendMessage_always_returns (content : string)
    (currentContractCode : option string) (σ : Dash) :
  (handleSendMessage env content currentContractCode σ).1 = Returned tt
  ∧ (∃ rest, messages (handleSendMessage env content currentContractCode σ).2 =
       messages σ ++ next_message env content true None None σ :: rest)
  ∧ generationAttemptFailed (handleSendMessage env content currentContractCode σ).2 =
      generationAttemptFailed σ
      + attempt_failed
          (sendChatMessage env (messageToSend content currentContractCode)
             (bummUid_or_null (currentProject σ)) (projects σ)).1.
Proof. apply (handleSendMessage_outcomes content currentContractCode σ). Qed.

End More_handlers.

Lemma handleDeploy_rejection_witness :
  (handleDeploy Scenario.offline "program" Sample.signed_in).1
    = Threw (ErrorObject "Network error")
  ∧ projects (handleDeploy Scenario.offline "program" Sample.signed_in).2
      = [Sample.vault; Sample.token]
  ∧ currentProject (handleDeploy Scenario.offline "program" Sample.signed_in).2
      = Some Sample.token
  ∧ calls (handleDeploy Scenario.offline "program" Sample.signed_in).2
      = [] ++ [deployContract_call "program"]
  ∧ ChatMessage.content <$> messages (handleDeploy Scenario.offline "program" Sample.signed_in).2
      = [] ++ ["Starting deployment..."; "Deployment failed: " +:+ "Network error"].
Proof.
  apply (handleDeploy_rejection Scenario.offline "program" Sample.signed_in Sample.alice
           (ErrorObject "Network error") [Sample.vault; Sample.token]).
  - reflexivity.
  - vm_compute. discriminate.
  - reflexivity.
Defined.

Lemma handleDeploy_without_project_witness :
  (handleDeploy Sample.env "program" Scenario.no_project).1 = Returned (Some "So1anaAddr")
  ∧ projects (handleDeploy Sample.env "program" Scenario.no_project).2
      = [Sample.vault; Sample.token]
  ∧ currentProject (handleDeploy Sample.env "program" Scenario.no_project).2 = None
  ∧ calls (handleDeploy Sample.env "program" Scenario.no_project).2
      = [] ++ [deployContract_call "program"]
  ∧ ChatMessage.content <$> messages (handleDeploy Sample.env "program" Scenario.no_project).2
      = [] ++ ["Starting deployment...";
               "Deployment successful! Your smart contract is now live on Solana. Contract address: "
                 +:+ "So1anaAddr"].
Proof.
  apply (handleDeploy_without_project Sample.env "program" Scenario.no_project Sample.alice
           "So1anaAddr" [Sample.vault; Sample.token]).
  - reflexivity.
  - vm_compute. discriminate.
  - reflexivity.
  - reflexivity.
Defined.

Lemma handleBuild_start_failure_witness :
  (handleBuild Scenario.offline "program" Sample.signed_in).1 = Returned tt
  ∧ isBuilding (handleBuild Scenario.offline "program" Sample.signed_in).2 = false
  ∧ calls (handleBuild Scenario.offline "program" Sample.signed_in).2
      = [] ++ [buildContract_call "program" (Some "project_7")]
  ∧ ChatMessage.content <$> messages (handleBuild Scenario.offline "program" Sample.signed_in).2
      = [] ++ ["🔧 Initializing build..."; "Failed to start build: " +:+ "Network error"].
Proof.
  apply (handleBuild_start_failure Scenario.offline "program" Sample.signed_in Sample.alice
           (ErrorObject "Network error") [Sample.vault; Sample.token]).
  - reflexivity.
  - vm_compute. discriminate.
  - reflexivity.
Defined.

Lemma handleBuild_status_message_witness :
  ∃ m : ChatMessage.t,
    messages (handleBuild Sample.env "program" Sample.signed_in).2 = [] ++ [m]
    ∧ ChatMessage.content m = "🔧 Initializing build..."
    ∧ isBuilding (handleBuild Sample.env "program" Sample.signed_in).2 = true
    ∧ last (calls (handleBuild Sample.env "program" Sample.signed_in).2) =
        Some (trackTaskStatus_call "project_7" "build"
                (BuildCallbacks (ChatMessage.id m) Sample.token)
                (Js.or_string (Some "bumm-7") "project_7"))
    ∧ last (messages (onProgress (BuildCallbacks (ChatMessage.id m) Sample.token)
                        (mkProgress "generating" 50 "Building contract...")
                        (handleBuild Sample.env "program" Sample.signed_in).2).2)
        = Some (ChatMessage.with_content m ("🔧 " +:+ "Building contract..."))
    ∧ length (messages (onProgress (BuildCallbacks (ChatMessage.id m) Sample.token)
                          (mkProgress "generating" 50 "Building contract...")
                          (handleBuild Sample.env "program" Sample.signed_in).2).2)
        = length (messages (handleBuild Sample.env "program" Sample.signed_in).2).
Proof.
  apply (handleBuild_status_message Sample.env "program" Sample.signed_in Sample.alice
           Sample.token [Sample.vault; Sample.token]
           (mkProgress "generating" 50 "Building contract...")).
  - reflexivity.
  - vm_compute. discriminate.
  - reflexivity.
Defined.

Section Generation.

Variable env : Env.

(** X17: when [sendChatMessage] answers with the action 'generate' and a
    [bumm_uid] while a project is selected, [handleSendMessage] makes the
    current project that project with the [bumm_uid] and the status
    'in-progress', but does not write it to the collection, which stays as
    the hook left it; the chat gets the user's message, the reply and the
    status message, and the id held by the tracker's callbacks is the id of
    that status message. *)
Theorem handleSendMessage_starts_generation (content : string)
    (currentContractCode : option string) (σ : Dash) (response : ChatResponse)
    (ps : list Project.t) (backend : string) (cur : Project.t) :
  sendChatMessage env (messageToSend content currentContractCode)
    (bummUid_or_null (currentProject σ)) (projects σ) = (Returned response, ps) →
  action response = Some "generate" → bumm_uid response = Some backend → backend ≠ "" →
  currentProject σ = Some cur →
  let σ' := (handleSendMessage env content currentContractCode σ).2 in
  currentProject σ' = Some (in_progress cur backend)
  ∧ Project.bummUid (in_progress cur backend) = Some backend
  ∧ Project.status (in_progress cur backend) = "in-progress"
  ∧ projects σ' = ps
  ∧ ChatMessage.content <$> messages σ' =
      (ChatMessage.content <$> messages σ) ++ [content; reply response; "⚡ Initializing..."]
  ∧ ∃ m, last (messages σ') = Some m
         ∧ last (calls σ') =
             Some (trackTaskStatus_call (Project.uid cur) "generate"
                     (GenerateCallbacks (ChatMessage.id m) (in_progress cur backend)) backend).
Proof.
  intros Hs Ha Hb Hne Hc σ'.
  cut (wp (handleSendMessage env content currentContractCode) σ (λ _ τ,
         currentProject τ = Some (in_progress cur backend)
         ∧ projects τ = ps
         ∧ ChatMessage.content <$> messages τ =
             (ChatMessage.content <$> messages σ)
               ++ [content; reply response; "⚡ Initializing..."]
         ∧ ∃ m, last (messages τ) = Some m
                ∧ last (calls τ) =
                    Some (trackTaskStatus_call (Project.uid cur) "generate"
                            (GenerateCallbacks (ChatMessage.id m) (in_progress cur backend))
                            backend))).
  { unfold wp. fold σ'. intros (? & ? & ? & ?). done. }
  unfold handleSendMessage. run wp_get_state. run run_post.
  apply wp_try_catch. run (@run_await ChatResponse). intros r ps' Hop.
  fields_in Hop. rewrite Hs in Hop. injection Hop as <- <-. cbn beta iota.
  run run_post. apply wp_bind. rewrite Hb, Hc.
  rewrite (bool_decide_eq_true_2 _ Ha). cbn [negb andb].
  assert (Js.truthy backend = true) as ->.
  { unfold Js.truthy, Js.string_truthy, Js.strict_eq. by rewrite bool_decide_eq_false_2. }
  run (@wp_ret unit). run (@wp_ret Project.t). run run_setCurrentProject.
  run run_generateUniqueMessageId. run run_append_message. run run_trackTaskStatus.
  fields. split; [done|]. split; [done|]. split.
  - by rewrite !fmap_app, <- !app_assoc.
  - eexists. rewrite !last_app. cbn [last]. split; reflexivity.
Qed.

End Generation.

Lemma handleSendMessage_starts_generation_witness :
  let σ' := (handleSendMessage Sample.env "a token please" None Sample.signed_in).2 in
  currentProject σ' = Some (in_progress Sample.token "bumm-9")
  ∧ Project.bummUid (in_progress Sample.token "bumm-9") = Some "bumm-9"
  ∧ Project.status (in_progress Sample.token "bumm-9") = "in-progress"
  ∧ projects σ' = [Sample.vault; Sample.token]
  ∧ ChatMessage.content <$> messages σ' =
      [] ++ ["a token please"; "On it."; "⚡ Initializing..."]
  ∧ ∃ m, last (messages σ') = Some m
         ∧ last (calls σ') =
             Some (trackTaskStatus_call "project_7" "generate"
                     (GenerateCallbacks (ChatMessage.id m) (in_progress Sample.token "bumm-9"))
                     "bumm-9").
Proof.
  apply (handleSendMessage_starts_generation Sample.env "a token please" None Sample.signed_in
           (mkChatResponse "On it." (Some "generate") (Some "bumm-9"))
           [Sample.vault; Sample.token] "bumm-9" Sample.token).
  - reflexivity.
  - reflexivity.
  - reflexivity.
  - discriminate.
  - reflexivity.
Defined.

(** ** The call sites of [trackTaskStatus] *)

Section Call_sites.

Variable env : Env.

(** [a || b] on strings, by cases. *)
Lemma or_string_cases (a : option string) (b : string) :
  Js.or_string a b =
    match a with
    | Some s => if bool_decide (s = "") then b else s
    | None => b
    end.
Proof.
  unfold Js.or_string, Js.truthy, Js.string_truthy, Js.strict_eq.
  destruct a as [s|]; [|done]. by destruct (bool_decide (s = "")).
Qed.

(** The calls of one run of [handleSendMessage]. *)
Lemma handleSendMessage_call_list (content : string) (currentContractCode : option string)
    (σ : Dash) :
  wp (handleSendMessage env content currentContractCode) σ (λ _ σ', ∃ id,
    calls σ' =
      calls σ ++
      sendChatMessage_call (messageToSend content currentContractCode)
        (bummUid_or_null (currentProject σ)) ::
      match sendChatMessage env (messageToSend content currentContractCode)
              (bummUid_or_null (currentProject σ)) (projects σ) with
      | (Returned response, ps) =>
          match bumm_uid response with
          | Some backend =>
              if bool_decide (action response = Some "generate") && Js.truthy backend then
                match currentProject σ with
                | Some project =>
                    [trackTaskStatus_call (Project.uid project) "generate"
                       (GenerateCallbacks id (in_progress project backend)) backend]
                | None =>
                    createProject_call "New Contract" ::
                    match createProject env "New Contract" ps with
                    | (Returned project, _) =>
                        [trackTaskStatus_call (Project.uid project) "generate"
                           (GenerateCallbacks id (in_progress project backend)) backend]
                    | (Threw _, _) => []
                    end
                end
              else []
          | None => []
          end
      | (Threw _, _) => []
      end).
Proof.
  unfold handleSendMessage. run wp_get_state. run run_post.
  apply wp_try_catch. run (@run_await ChatResponse). intros r ps Hop.
  fields_in Hop. rewrite Hop. destruct r as [response|e]; cbn beta iota.
  2:{ run run_post. exists "". fields. reflexivity. }
  run run_post. apply wp_bind.
  destruct (bool_decide (action response = Some "generate")) eqn:Ea; cbn [negb].
  - run (@wp_ret unit). cbn beta iota.
    destruct (bumm_uid response) as [backend|]; cbn [andb].
    2:{ run (@wp_ret unit). exists "". fields. reflexivity. }
    destruct (Js.truthy backend).
    2:{ run (@wp_ret unit). exists "". fields. reflexivity. }
    destruct (currentProject σ) as [cur|].
    + run (@wp_ret Project.t). run run_setCurrentProject.
      run run_generateUniqueMessageId. run run_append_message. run run_trackTaskStatus.
      eexists. fields. rewrite <- app_assoc. reflexivity.
    + run (@run_await Project.t). intros r' ps' Hop'. fields_in Hop'. rewrite Hop'.
      destruct r' as [project|e]; cbn beta iota.
      * run run_setCurrentProject.
        run run_generateUniqueMessageId. run run_append_message. run run_trackTaskStatus.
        eexists. fields. rewrite <- !app_assoc. reflexivity.
      * run run_post. exists "". fields. rewrite <- !app_assoc. reflexivity.
  - run run_setGenerationAttemptFailed. cbn beta iota.
    destruct (bumm_uid response) as [backend|]; cbn [andb];
      run (@wp_ret unit); exists ""; fields; reflexivity.
Qed.

(** C4, as amended: the calls that [handleBuild] and [handleSendMessage]
    make, in full.  [trackTaskStatus] is called at two sites and nowhere
    else.  [handleBuild] calls it exactly when the guard passes and
    [buildContract] resolves: the first argument is the uid of the project
    that [buildContract] returned, and the last is that project's
    [bummUid], or its uid when [bummUid] is missing or is the empty string.
    [handleSendMessage] calls it exactly when [sendChatMessage] resolves
    with the action 'generate' and a non-empty [bumm_uid], and the project
    to work on is there or [createProject] resolves: the first argument is
    the uid of the current project, or of the project just created when
    there is none, and the last is the [bumm_uid] of the response.  The
    closures passed along hold the same project. *)
Theorem trackTaskStatus_call_sites (σ : Dash) :
  (∀ code : string, ∃ id : string,
     calls (handleBuild env code σ).2 =
       calls σ ++
       match user σ with
       | None => []
       | Some _ =>
           if bool_decide (JsString.trim code = "") then []
           else
             buildContract_call code (Project.uid <$> currentProject σ) ::
             match buildContract env code (Project.uid <$> currentProject σ) (projects σ) with
             | (Returned project, _) =>
                 [trackTaskStatus_call (Project.uid project) "build"
                    (BuildCallbacks id project)
                    match Project.bummUid project with
                    | Some backend =>
                        if bool_decide (backend = "") then Project.uid project else backend
                    | None => Project.uid project
                    end]
             | (Threw _, _) => []
             end
       end)
  ∧ (∀ (content : string) (currentContractCode : option string), ∃ id : string,
       calls (handleSendMessage env content currentContractCode σ).2 =
         calls σ ++
         sendChatMessage_call (messageToSend content currentContractCode)
           (bummUid_or_null (currentProject σ)) ::
         match sendChatMessage env (messageToSend content currentContractCode)
                 (bummUid_or_null (currentProject σ)) (projects σ) with
         | (Returned response, ps) =>
             match bumm_uid response with
             | Some backend =>
                 if bool_decide (action response = Some "generate" ∧ backend ≠ "") then
                   match currentProject σ with
                   | Some project =>
                       [trackTaskStatus_call (Project.uid project) "generate"
                          (GenerateCallbacks id (in_progress project backend)) backend]
                   | None =>
                       createProject_call "New Contract" ::
                       match createProject env "New Contract" ps with
                       | (Returned project, _) =>
                           [trackTaskStatus_call (Project.uid project) "generate"
                              (GenerateCallbacks id (in_progress project backend)) backend]
                       | (Threw _, _) => []
                       end
                   end
                 else []
             | None => []
             end
         | (Threw _, _) => []
         end).
Proof.
  split.
  - intros code. pose proof (handleBuild_outcomes env code σ) as [_ H].
    pose proof (precondition_fails_iff code σ) as Hg.
    destruct (negb (Js.truthy (user σ)) || negb (Js.truthy (JsString.trim code))).
    + exists "". rewrite H.
      destruct (proj1 Hg eq_refl) as [Hu|Ht]; [by rewrite Hu, app_nil_r|].
      rewrite (bool_decide_eq_true_2 _ Ht). destruct (user σ); by rewrite app_nil_r.
    + assert (user σ ≠ None ∧ JsString.trim code ≠ "") as [Hu Ht].
      { split; intros Hc; destruct Hg as [_ Hg]; discriminate Hg; auto. }
      destruct (user σ) as [u|]; [|done]. rewrite (bool_decide_eq_false_2 _ Ht).
      destruct (buildContract env code (Project.uid <$> currentProject σ) (projects σ))
        as [[project|e] ps].
      * destruct H as (_ & _ & _ & _ & ->). exists (next_id env σ).
        by rewrite or_string_cases.
      * destruct H as (_ & _ & _ & _ & ->). by exists "".
  - intros content code.
    pose proof (handleSendMessage_call_list content code σ) as [id H].
    exists id. rewrite H. do 2 f_equal.
    destruct (sendChatMessage env _ _ _) as [[response|e] ps]; [|done].
    destruct (bumm_uid response) as [backend|]; [|done].
    assert (bool_decide (action response = Some "generate") && Js.truthy backend
            = bool_decide (action response = Some "generate" ∧ backend ≠ "")) as ->; [|done].
    unfold Js.truthy, Js.string_truthy, Js.strict_eq.
    by rewrite bool_decide_and, bool_decide_not.
Qed.

End Call_sites.

(** C4 as first stated fails on a project whose [bummUid] is there but
    empty: [handleBuild] polls with the local uid, though [bummUid] is not
    absent. *)
Lemma empty_bummUid_counterexample :
  ∃ id,
    buildContract Scenario.untagged_backend "program" (Some "project_7")
      [Sample.vault; Sample.token]
      = (Returned Scenario.untagged, [Sample.vault; Sample.token])
    ∧ Project.uid Scenario.untagged = "project_8"
    ∧ Project.bummUid Scenario.untagged = Some ""
    ∧ Project.bummUid Scenario.untagged ≠ None
    ∧ last (calls (handleBuild Scenario.untagged_backend "program" Sample.signed_in).2)
        = Some (trackTaskStatus_call "project_8" "build"
                  (BuildCallbacks id Scenario.untagged) "project_8").
Proof. eexists. vm_compute. repeat split. discriminate. Qed.

(** ** Renaming, archiving and the handlers that only talk *)

Section Project_handlers.

Variable env : Env.

Lemma with_clock_reads_same (σ : Dash) : with_clock_reads (clock_reads σ) σ = σ.
Proof. by destruct σ. Qed.

(** The [map] of [updateProjects_by_uid]: it rewrites the projects with the
    given uid, and moves nothing but the clock. *)
Lemma run_map_by_uid (uid : string) (f : Project.t → string → Project.t)
    (l : list Project.t) (σ : Dash) (Q : Outcome (list Project.t) → Dash → Prop) :
  (∀ l' n, Forall2 (rewritten uid f) l l' →
           Q (Returned l') (with_clock_reads (n + clock_reads σ) σ)) →
  wp (mapM (λ p, if Project.uid p === uid
                 then t ← new_Date_toISOString env; mret (f p t)
                 else mret p) l) σ Q.
Proof.
  revert σ Q. induction l as [|p l IH]; intros σ Q H.
  - apply wp_ret. assert (Forall2 (rewritten uid f) [] []) as Hnil by constructor.
    specialize (H [] 0%nat Hnil).
    change (0 + clock_reads σ)%nat with (clock_reads σ) in H.
    by rewrite with_clock_reads_same in H.
  - cbn [mapM]. apply wp_bind. destruct (Project.uid p === uid) eqn:E.
    + run run_new_Date_toISOString. run (@wp_ret Project.t). apply wp_bind, IH.
      intros l' n F. apply wp_ret.
      specialize (H (f p (toISOString env (Date_now env (clock_reads σ))) :: l') (S n)).
      replace (S n + clock_reads σ)%nat with (n + clock_reads (ticked σ))%nat in H
        by (cbn [clock_reads ticked]; lia).
      apply H. constructor; [|done]. unfold rewritten. rewrite E. eauto.
    + run (@wp_ret Project.t). apply wp_bind, IH. intros l' n F. apply wp_ret.
      apply (H (p :: l') n). constructor; [|done]. unfold rewritten. by rewrite E.
Qed.

Lemma run_updateProjects_by_uid (uid : string) (f : Project.t → string → Project.t)
    (σ : Dash) (Q : Outcome unit → Dash → Prop) :
  (∀ ps n, Forall2 (rewritten uid f) (projects σ) ps →
           Q (Returned tt) (set_projects ps (with_clock_reads (n + clock_reads σ) σ))) →
  wp (updateProjects_by_uid env uid f) σ Q.
Proof.
  intros H. unfold updateProjects_by_uid. run wp_get_state.
  cbn beta iota. apply wp_bind, run_map_by_uid. intros ps n F.
  run run_updateProjects. by apply H.
Qed.

(** The current project after a handler that rewrites it with [f] when it
    has the uid of [project]. *)
Lemma is_current_rewrite (cur : option Project.t) (project : Project.t)
    (f : Project.t → Project.t) :
  (if is_current cur project
   then match cur with Some c => Some (f c) | None => None end
   else cur)
  = (λ c, if Project.uid c === Project.uid project then f c else c) <$> cur.
Proof. destruct cur as [c|]; [|done]. cbn. by destruct (Project.uid c === _). Qed.





Lemma Forall2_rewritten_compose (uid : string) (f g h : Project.t → string → Project.t)
    (l1 l2 l3 : list Project.t) :
  (∀ p t, Project.uid (f p t) = Project.uid p) →
  (∀ p t t', g (f p t) t' = h p t') →
  Forall2 (rewritten uid f) l1 l2 → Forall2 (rewritten uid g) l2 l3 →
  Forall2 (rewritten uid h) l1 l3.
Proof.
  intros Hu Hc F12. revert l3. induction F12 as [|p p' l l' R _ IH]; intros l3 F23.
  - inversion F23. constructor.
  - inversion F23 as [|? p'' ? l'' R' F']; subst. constructor; [|by apply IH].
    unfold rewritten in *. destruct (Project.uid p === uid) eqn:E.
    + destruct R as [t ->]. rewrite Hu, E in R'. destruct R' as [t' ->]. eauto.
    + subst p'. by rewrite E in R'.
Qed.


(** Every outcome of [handleArchiveProject]. *)
Lemma handleArchiveProject_outcomes (project : Project.t) (σ : Dash) :
  wp (handleArchiveProject env project) σ (λ o σ',
    o = Returned tt
    ∧ Forall2 (rewritten (Project.uid project)
                 (λ p t, archived p (negb (Project.isFrozen project)) t))
        (projects σ) (projects σ')
    ∧ currentProject σ' =
        (λ c, if Project.uid c === Project.uid project
              then with_isFrozen c (negb (Project.isFrozen project)) else c)
          <$> currentProject σ
    ∧ calls σ' = calls σ
    ∧ ChatMessage.content <$> messages σ' =
        (ChatMessage.content <$> messages σ)
          ++ ["Project " +:+ quoted_name project +:+ " "
              +:+ (if negb (Project.isFrozen project) then "archived" else "unarchived")]).
Proof.
  unfold handleArchiveProject. run wp_get_state. apply wp_try_catch. cbn zeta.
  run run_updateProjects_by_uid. intros ps n F. cbn beta iota. apply wp_bind.
  rewrite <- is_current_rewrite.
  destruct (is_current (currentProject σ) project).
  - run run_setCurrentProject_with. run run_addAIMessage. fields.
    repeat split; try done. by rewrite fmap_app.
  - run (@wp_ret unit). run run_addAIMessage. fields.
    repeat split; try done. by rewrite fmap_app.
Qed.

(** X20: [handleArchiveProject] sets [isFrozen] of every project with the
    uid to the opposite of the flag of the project it was handed, not of
    the project in the collection; so handing it the same project object a
    second time does not toggle back: the flag has the same value after the
    second run as after the first.  It never rejects and makes no call. *)
Theorem handleArchiveProject_effect (project : Project.t) (σ : Dash) :
  let once := handleArchiveProject env project σ in
  let twice := handleArchiveProject env project once.2 in
  once.1 = Returned tt
  ∧ calls once.2 = calls σ
  ∧ Forall2 (λ p p', if Project.uid p === Project.uid project
                     then Project.isFrozen p' = negb (Project.isFrozen project)
                          ∧ ∃ t, p' = archived p (negb (Project.isFrozen project)) t
                     else p' = p)
      (projects σ) (projects once.2)
  ∧ Forall2 (λ p p', if Project.uid p === Project.uid project
                     then Project.isFrozen p' = negb (Project.isFrozen project)
                          ∧ ∃ t, p' = archived p (negb (Project.isFrozen project)) t
                     else p' = p)
      (projects σ) (projects twice.2).
Proof.
  intros once twice.
  pose proof (handleArchiveProject_outcomes project σ) as (Ho & F1 & _ & Hc & _).
  pose proof (handleArchiveProject_outcomes project once.2) as (_ & F2 & _).
  fold once in Ho, F1, Hc. fold twice in F2.
  assert (∀ l l', Forall2 (rewritten (Project.uid project)
                             (λ p t, archived p (negb (Project.isFrozen project)) t)) l l' →
            Forall2 (λ p p', if Project.uid p === Project.uid project
                             then Project.isFrozen p' = negb (Project.isFrozen project)
                                  ∧ ∃ t, p' = archived p (negb (Project.isFrozen project)) t
                             else p' = p) l l') as Hw.
  { intros l l' F. eapply Forall2_impl; [exact F|]. intros p p' R. unfold rewritten in R.
    destruct (Project.uid p === Project.uid project); [|done].
    destruct R as [t ->]. eauto. }
  split; [done|]. split; [done|]. split; [by apply Hw|]. apply Hw.
  by apply (Forall2_rewritten_compose (Project.uid project)
              (λ p t, archived p (negb (Project.isFrozen project)) t)
              (λ p t, archived p (negb (Project.isFrozen project)) t)
              (λ p t, archived p (negb (Project.isFrozen project)) t)
              _ _ _ (λ _ _, eq_refl) (λ _ _ _, eq_refl) F1 F2).
Qed.

(** X21: [handleCreateGroup], [handleAddToGroup], [handleToggleVisibility]
    and [handleExportProject] only talk: each appends one assistant message
    and changes nothing else: no call, no change to the collection or to
    the current project; in particular toggling visibility toggles nothing. *)
Theorem talking_handlers_change_nothing (project : Project.t) (σ : Dash) :
  Forall (λ handler : Project.t → M unit,
            (handler project σ).1 = Returned tt
            ∧ projects (handler project σ).2 = projects σ
            ∧ currentProject (handler project σ).2 = currentProject σ
            ∧ calls (handler project σ).2 = calls σ
            ∧ ∃ m, messages (handler project σ).2 = messages σ ++ [m]
                   ∧ ChatMessage.isUser m = false)
    [handleCreateGroup env; handleAddToGroup env; handleToggleVisibility env;
     handleExportProject env].
Proof.
  assert (∀ content handler,
            wp (try_catch (addAIMessage env content) handler) σ (λ o σ',
              o = Returned tt ∧ projects σ' = projects σ
              ∧ currentProject σ' = currentProject σ ∧ calls σ' = calls σ
              ∧ ∃ m, messages σ' = messages σ ++ [m] ∧ ChatMessage.isUser m = false)) as H.
  { intros content handler. apply wp_try_catch. run run_addAIMessage. fields.
    repeat split; try done. eexists. split; reflexivity. }
  repeat constructor; apply H.
Qed.

End Project_handlers.

(** ** Creating and deleting projects *)

Section Page_handlers.

Variable env : Env.

Lemma page_ret {A} (a : A) (s : Page) (Q : Outcome A → Page → Prop) :
  Q (Returned a) s → wp_page (mret a) s Q.
Proof. done. Qed.

Lemma page_bind {A B} (m : PageM A) (f : A → PageM B) (s : Page)
    (Q : Outcome B → Page → Prop) :
  wp_page m s (λ o s', match o with
                       | Returned a => wp_page (f a) s' Q
                       | Threw e => Q (Threw e) s'
                       end) →
  wp_page (m ≫= f) s Q.
Proof. unfold wp_page, mbind, PageM_bind. by destruct (m s) as [[a|e] s']. Qed.

Lemma page_try_catch {A} (body : PageM A) (handler : Thrown → PageM A) (s : Page)
    (Q : Outcome A → Page → Prop) :
  wp_page body s (λ o s', match o with
                          | Returned a => Q (Returned a) s'
                          | Threw e => wp_page (handler e) s' Q
                          end) →
  wp_page (try_catch_page body handler) s Q.
Proof. unfold wp_page, try_catch_page. by destruct (body s) as [[a|e] s']. Qed.

Lemma page_get (s : Page) (Q : Outcome Page → Page → Prop) :
  Q (Returned s) s → wp_page get_page s Q.
Proof. done. Qed.

Lemma page_track (e : AnalyticsEvent) (s : Page) (Q : Outcome unit → Page → Prop) :
  Q (Returned tt) (mkPage (dash s) (analytics s ++ [e])) → wp_page (track e) s Q.
Proof. done. Qed.

Lemma page_on_dash {A} (m : M A) (s : Page) (Q : Outcome A → Page → Prop) :
  wp m (dash s) (λ o σ', Q o (mkPage σ' (analytics s))) → wp_page (on_dash m) s Q.
Proof. unfold wp, wp_page, on_dash. by destruct (m (dash s)) as [o σ']. Qed.

(** Run one step on the component state with the rule [lem]. *)
Ltac page_run lem :=
  cbn beta iota; first [apply page_on_dash | apply page_bind; apply page_on_dash];
  apply lem; cbn [dash analytics].

Ltac page_step lem :=
  cbn beta iota; first [apply lem | apply page_bind; apply lem]; cbn [dash analytics].

(** Every outcome of [handleDeleteProject]. *)
Lemma handleDeleteProject_outcomes (project : Project.t) (s : Page) :
  let remaining := filter (λ p, Project.uid p ≠ Project.uid project) (projects (dash s)) in
  let deleted := "Project " +:+ quoted_name project +:+ " deleted" in
  wp_page (handleDeleteProject env project) s (λ o s',
    o = Returned tt
    ∧ projects (dash s') = remaining
    ∧ currentProject (dash s') =
        (if is_current (currentProject (dash s)) project
         then head remaining else currentProject (dash s))
    ∧ calls (dash s') = calls (dash s)
    ∧ analytics s' = analytics s ++ [trackProjectDelete_event (Project.uid project)]
    ∧ ChatMessage.content <$> messages (dash s') =
        (if is_current (currentProject (dash s)) project && bool_decide (remaining = [])
         then [deleted]
         else (ChatMessage.content <$> messages (dash s)) ++ [deleted])).
Proof.
  intros remaining deleted. subst remaining deleted.
  unfold handleDeleteProject. page_step page_get.
  apply page_try_catch. page_run run_updateProjects.
  cbn beta iota. apply page_bind.
  destruct (is_current (currentProject (dash s)) project); cbn [andb].
  - cbn zeta. page_run run_setCurrentProject.
    match goal with |- context [head ?l] => destruct l as [|p rest] eqn:Er end.
    + rewrite !bool_decide_eq_true_2 by done.
      page_run run_setMessages. page_step page_track. page_run run_addAIMessage.
      fields. repeat split; done.
    + rewrite !bool_decide_eq_false_2 by done.
      page_step (@page_ret unit). page_step page_track. page_run run_addAIMessage.
      fields. repeat split; try done. by rewrite fmap_app.
  - page_step (@page_ret unit). page_step page_track. page_run run_addAIMessage.
    fields. repeat split; try done. by rewrite fmap_app.
Qed.

(** X22: [handleDeleteProject] never rejects and is purely local: it calls
    analytics once and the backend not at all.  It removes every project
    with the uid from the collection and keeps the others in order.  When
    the current project had that uid, the first remaining project becomes
    current, and if none remains there is no current project and the chat is
    emptied before the "deleted" message is added. *)
Theorem handleDeleteProject_effect (project : Project.t) (s : Page) :
  let remaining := filter (λ p, Project.uid p ≠ Project.uid project) (projects (dash s)) in
  let deleted := "Project " +:+ quoted_name project +:+ " deleted" in
  let s' := (handleDeleteProject env project s).2 in
  (handleDeleteProject env project s).1 = Returned tt
  ∧ projects (dash s') = remaining
  ∧ currentProject (dash s') =
      (if is_current (currentProject (dash s)) project
       then head remaining else currentProject (dash s))
  ∧ calls (dash s') = calls (dash s)
  ∧ analytics s' = analytics s ++ [trackProjectDelete_event (Project.uid project)]
  ∧ ChatMessage.content <$> messages (dash s') =
      (if is_current (currentProject (dash s)) project && bool_decide (remaining = [])
       then [deleted]
       else (ChatMessage.content <$> messages (dash s)) ++ [deleted]).
Proof. apply (handleDeleteProject_outcomes project s). Qed.

(** X23: after [handleDeleteProject] no project of the collection and no
    current project has the deleted uid; and if the current project's uid
    was in the collection before, then afterwards there is either no current
    project or one whose uid is in the collection. *)
Theorem handleDeleteProject_leaves_no_trace (project : Project.t) (s : Page) :
  Project.uid <$> currentProject (dash s) ∈ (Some <$> (Project.uid <$> projects (dash s))) →
  let s' := (handleDeleteProject env project s).2 in
  (Project.uid project ∉ (Project.uid <$> projects (dash s')))
  ∧ Project.uid <$> currentProject (dash s') ≠ Some (Project.uid project)
  ∧ (currentProject (dash s') = None
     ∨ Project.uid <$> currentProject (dash s')
         ∈ (Some <$> (Project.uid <$> projects (dash s')))).
Proof.
  intros Hin s'.
  pose proof (handleDeleteProject_outcomes project s) as (_ & Hp & Hc & _).
  fold s' in Hp, Hc. rewrite Hp, Hc. clear Hp Hc s'.
  match goal with |- context [head ?l] => remember l as remaining eqn:Hr end.
  assert (∀ p, p ∈ remaining → Project.uid p ≠ Project.uid project) as Hrem.
  { intros p Hp. rewrite Hr in Hp. by apply list_elem_of_filter in Hp as [? _]. }
  assert (∀ p, p ∈ projects (dash s) → Project.uid p ≠ Project.uid project → p ∈ remaining)
    as Hkeep.
  { intros p Hp Hu. rewrite Hr. by apply list_elem_of_filter. }
  clear Hr. split.
  { intros (p & Hu & Hp)%list_elem_of_fmap. by apply Hrem in Hp. }
  destruct (currentProject (dash s)) as [c|] eqn:Ecur; cbn [is_current].
  - destruct (Project.uid c === Project.uid project) eqn:E.
    + destruct remaining as [|p rest]; cbn [head fmap option_fmap option_map].
      * split; [discriminate|by left].
      * split.
        -- intros [= Hu]. apply (Hrem p); [by left|done].
        -- right. rewrite <- !list_fmap_compose. apply list_elem_of_fmap.
           exists p. split; [done|by left].
    + apply strict_eq_false in E. cbn [fmap option_fmap option_map]. split.
      * by intros [= ?].
      * right. cbn [fmap option_fmap option_map] in Hin.
        rewrite <- !list_fmap_compose in *.
        apply list_elem_of_fmap in Hin as (p & [= Hu] & Hp).
        apply list_elem_of_fmap. exists p. split; [by cbn; rewrite Hu|].
        apply Hkeep; [done|congruence].
  - cbn [fmap option_fmap option_map]. split; [discriminate|by left].
Qed.

(** Every outcome of [handleCreateNew]. *)
Lemma handleCreateNew_outcomes (s : Page) :
  let projectName :=
    "Project " +:+ JsString.of_number (Z.of_nat (length (projects (dash s))) + 1) in
  wp_page (handleCreateNew env) s (λ o s',
    o = Returned tt
    ∧ match user (dash s) with
      | None => s' = s
      | Some _ =>
          match createProject env projectName (projects (dash s)) with
          | (Returned newProject, ps) =>
              currentProject (dash s') = Some newProject
              ∧ projects (dash s') = ps
              ∧ calls (dash s') = calls (dash s) ++ [createProject_call projectName]
              ∧ analytics s' = analytics s ++ [trackProjectCreate_event projectName]
              ∧ ChatMessage.content <$> messages (dash s') =
                  ["🆕 New project " +:+ JsString.dquote +:+ projectName +:+ JsString.dquote
                   +:+ " created! Describe what smart contract you'd like to build."]
          | (Threw e, ps) =>
              currentProject (dash s') = currentProject (dash s)
              ∧ projects (dash s') = ps
              ∧ calls (dash s') = calls (dash s) ++ [createProject_call projectName]
              ∧ analytics s' = analytics s
              ∧ messageIdCounter (dash s') = messageIdCounter (dash s)
              ∧ messages (dash s') =
                  messages (dash s)
                    ++ [ChatMessage.mk
                          (JsString.of_number (Date_now env (clock_reads (dash s))))
                          ("Failed to create new project: " +:+ error_message e)
                          (Date_now env (S (clock_reads (dash s)))) false None None]
          end
      end).
Proof.
  intros projectName. unfold handleCreateNew. page_step page_get.
  destruct (user (dash s)) as [u|]; cbn [Js.truthy Js.option_truthy negb];
    [|by apply page_ret].
  change (Js.truthy u) with true. cbn [negb].
  apply page_try_catch. cbn zeta. fold projectName.
  page_run (@run_await Project.t). intros r ps Hop. fields_in Hop. rewrite Hop.
  destruct r as [newProject|e]; cbn beta iota.
  - page_run run_setCurrentProject. page_step page_track. page_run run_setMessages.
    page_run run_post. fields. repeat split; done.
  - apply page_on_dash. cbn [dash analytics].
    unfold append_message. apply wp_bind. run run_read_clock. run (@wp_ret string).
    run run_read_clock. run run_setMessages. fields. repeat split; done.
Qed.

(** X24: [handleCreateNew] never rejects and does nothing without a user.
    With one it asks for "Project n" where n is one more than the number of
    projects.  If [createProject] resolves, the new project becomes current
    and the chat is replaced by the single welcome message.  If it rejects,
    the chat is kept and one error message is added whose id is the bare
    clock reading, the message counter staying where it was; the current
    project is unchanged and analytics is not called. *)
Theorem handleCreateNew_effect (s : Page) :
  let projectName :=
    "Project " +:+ JsString.of_number (Z.of_nat (length (projects (dash s))) + 1) in
  let s' := (handleCreateNew env s).2 in
  (handleCreateNew env s).1 = Returned tt
  ∧ match user (dash s) with
    | None => s' = s
    | Some _ =>
        match createProject env projectName (projects (dash s)) with
        | (Returned newProject, ps) =>
            currentProject (dash s') = Some newProject
            ∧ projects (dash s') = ps
            ∧ calls (dash s') = calls (dash s) ++ [createProject_call projectName]
            ∧ analytics s' = analytics s ++ [trackProjectCreate_event projectName]
            ∧ ChatMessage.content <$> messages (dash s') =
                ["🆕 New project " +:+ JsString.dquote +:+ projectName +:+ JsString.dquote
                 +:+ " created! Describe what smart contract you'd like to build."]
        | (Threw e, ps) =>
            currentProject (dash s') = currentProject (dash s)
            ∧ projects (dash s') = ps
            ∧ calls (dash s') = calls (dash s) ++ [createProject_call projectName]
            ∧ analytics s' = analytics s
            ∧ messageIdCounter (dash s') = messageIdCounter (dash s)
            ∧ messages (dash s') =
                messages (dash s)
                  ++ [ChatMessage.mk
                        (JsString.of_number (Date_now env (clock_reads (dash s))))
                        ("Failed to create new project: " +:+ error_message e)
                        (Date_now env (S (clock_reads (dash s)))) false None None]
        end
    end.
Proof. apply (handleCreateNew_outcomes s). Qed.

End Page_handlers.

Lemma handleDeleteProject_leaves_no_trace_witness :
  let s' := (handleDeleteProject Sample.env Sample.token (mkPage Sample.signed_in [])).2 in
  (Project.uid Sample.token ∉ (Project.uid <$> projects (dash s')))
  ∧ Project.uid <$> currentProject (dash s') ≠ Some (Project.uid Sample.token)
  ∧ (currentProject (dash s') = None
     ∨ Project.uid <$> currentProject (dash s')
         ∈ (Some <$> (Project.uid <$> projects (dash s')))).
Proof.
  apply (handleDeleteProject_leaves_no_trace Sample.env Sample.token
           (mkPage Sample.signed_in [])).
  apply list_elem_of_In. vm_compute. tauto.
Defined.

(** ** Switching projects, and the callbacks of the generate site *)

Section Switching.

Variable env : Env.

(** Every outcome of [handleSelectProject]: either saving the chat threw and
    nothing changed, or the chat was saved when there was one to save, the
    project is selected and its stored chat is shown. *)
Lemma handleSelectProject_outcomes (json : Json) (project : Project.t) (σ : Dash) :
  wp (handleSelectProject env json project) σ (λ o σ',
    o = Returned tt
    ∧ ((∃ cur e, currentProject σ = Some cur ∧ messages σ ≠ []
                 ∧ setItem_throws env (chat_history_key (Project.uid cur))
                     (stringify json (messages σ)) = Some e
                 ∧ σ' = σ)
       ∨ (currentProject σ' = Some project
          ∧ messages σ' = stored_chat json (localStorage σ') (Project.uid project)
          ∧ localStorage σ' =
              match currentProject σ with
              | Some cur =>
                  if bool_decide (messages σ = []) then localStorage σ
                  else <[chat_history_key (Project.uid cur) := stringify json (messages σ)]>
                         (localStorage σ)
              | None => localStorage σ
              end
          ∧ projects σ' = projects σ ∧ calls σ' = calls σ
          ∧ generatedCode σ' = generatedCode σ ∧ isBuilding σ' = isBuilding σ
          ∧ (∀ cur, currentProject σ = Some cur → messages σ ≠ [] →
               setItem_throws env (chat_history_key (Project.uid cur))
                 (stringify json (messages σ)) = None)))).
Proof.
  assert (∀ σ1 : Dash,
            wp (match localStorage σ1 !! chat_history_key (Project.uid project) with
                | Some savedMessages =>
                    if Js.truthy savedMessages then
                      match parse json savedMessages with
                      | Some messagesWithDates => setMessages (λ _, messagesWithDates)
                      | None => setMessages (λ _, [])
                      end
                    else setMessages (λ _, [])
                | None => setMessages (λ _, [])
                end) σ1
              (λ o σ', o = Returned tt
                       ∧ σ' = with_messages
                                (stored_chat json (localStorage σ1) (Project.uid project)) σ1))
    as Hload.
  { intros σ1. unfold stored_chat.
    destruct (localStorage σ1 !! chat_history_key (Project.uid project)) as [s|];
      [|by apply run_setMessages].
    destruct (Js.truthy s); [|by apply run_setMessages].
    destruct (parse json s); by apply run_setMessages. }
  unfold handleSelectProject. run wp_get_state. apply wp_try_catch. cbn zeta.
  apply wp_bind.
  destruct (currentProject σ) as [cur|] eqn:Ecur.
  - destruct (messages σ) as [|m ms] eqn:Ems.
    + cbn [length Z.of_nat Z.ltb Z.compare]. apply wp_ret.
      run run_setCurrentProject. run wp_get_state. cbn beta.
      unfold wp. specialize (Hload (with_currentProject (Some project) σ)).
      unfold wp in Hload. destruct Hload as [-> ->]. split; [done|]. right.
      fields. repeat split; done.
    + change (0 <? Z.of_nat (length (m :: ms))) with true. cbn iota.
      apply run_setItem.
      destruct (setItem_throws env (chat_history_key (Project.uid cur))
                  (stringify json (m :: ms))) as [e|] eqn:Ethrow.
      * apply wp_ret. split; [done|]. left. by exists cur, e.
      * run run_setCurrentProject. run wp_get_state. cbn beta.
        unfold wp.
        specialize (Hload (with_currentProject (Some project)
                             (with_localStorage
                                (<[chat_history_key (Project.uid cur) :=
                                     stringify json (m :: ms)]> (localStorage σ)) σ))).
        unfold wp in Hload. destruct Hload as [-> ->]. split; [done|]. right.
        fields. repeat split; try done. by intros ? [= <-] _.
  - apply wp_ret. run run_setCurrentProject. run wp_get_state. cbn beta.
    unfold wp. specialize (Hload (with_currentProject (Some project) σ)).
    unfold wp in Hload. destruct Hload as [-> ->]. split; [done|]. right.
    fields. repeat split; try done.
Qed.

(** The chat stored under a project's key by [handleSelectProject] is the
    chat it loads from there, when the serialiser gives that chat back. *)
Lemma stored_chat_insert (json : Json) (store : gmap string string) (uid : string)
    (ms : list ChatMessage.t) :
  stringify json ms ≠ "" →
  parse json (stringify json ms) = Some ms →
  stored_chat json (<[chat_history_key uid := stringify json ms]> store) uid = ms.
Proof.
  intros Hne Hparse. unfold stored_chat. rewrite lookup_insert_eq.
  unfold Js.truthy, Js.string_truthy.
  apply strict_eq_false in Hne. rewrite Hne. cbn. by rewrite Hparse.
Qed.

(** X25: when there is a chat to save and [localStorage.setItem] throws,
    [handleSelectProject] gives up silently: it returns, and the state is
    the one it started from, so the project is not switched. *)
Theorem handleSelectProject_save_failure (json : Json) (project cur : Project.t)
    (e : Thrown) (σ : Dash) :
  currentProject σ = Some cur →
  messages σ ≠ [] →
  setItem_throws env (chat_history_key (Project.uid cur)) (stringify json (messages σ))
    = Some e →
  handleSelectProject env json project σ = (Returned tt, σ).
Proof.
  intros Hcur Hms Hthrow.
  pose proof (handleSelectProject_outcomes json project σ) as H. unfold wp in H.
  destruct (handleSelectProject env json project σ) as [o σ'].
  cbn [fst snd] in H. destruct H as [-> [(cur' & e' & _ & _ & _ & ->)|H]]; [done|].
  destruct H as (_ & _ & _ & _ & _ & _ & _ & H). by rewrite (H cur Hcur Hms) in Hthrow.
Qed.

(** X26: saving and loading fit together.  With a storage that takes every
    write and a serialiser that gives the current chat back, selecting
    another project and then the first one again shows the chat that was
    there before, whatever the other project is, even one with the same
    uid. *)
Theorem handleSelectProject_round_trip (json : Json) (a b : Project.t) (σ : Dash) :
  currentProject σ = Some a →
  messages σ ≠ [] →
  (∀ k v, setItem_throws env k v = None) →
  stringify json (messages σ) ≠ "" →
  parse json (stringify json (messages σ)) = Some (messages σ) →
  let away := (handleSelectProject env json b σ).2 in
  let back := (handleSelectProject env json a away).2 in
  currentProject away = Some b
  ∧ currentProject back = Some a
  ∧ messages back = messages σ.
Proof.
  intros Hcur Hms Hset Hne Hparse away back.
  pose proof (handleSelectProject_outcomes json b σ) as H1. unfold wp in H1.
  fold away in H1. destruct H1 as [_ [(c & e & _ & _ & He & _)|H1]];
    [by rewrite Hset in He|].
  destruct H1 as (Hcur1 & Hms1 & Hls1 & _).
  rewrite Hcur, bool_decide_eq_false_2 in Hls1 by done.
  pose proof (handleSelectProject_outcomes json a away) as H2. unfold wp in H2.
  fold back in H2. destruct H2 as [_ [(c & e & _ & _ & He & _)|H2]];
    [by rewrite Hset in He|].
  destruct H2 as (Hcur2 & Hms2 & Hls2 & _).
  rewrite Hcur1 in Hls2. split; [done|]. split; [done|].
  rewrite Hms2, Hls2.
  assert (stored_chat json (localStorage away) (Project.uid a) = messages σ) as Hkept.
  { rewrite Hls1. by apply stored_chat_insert. }
  destruct (bool_decide (messages away = [])); [done|].
  destruct (decide (chat_history_key (Project.uid b) = chat_history_key (Project.uid a)))
    as [Ekey|Nkey].
  - assert (messages away = messages σ) as ->.
    { rewrite Hms1. unfold stored_chat. rewrite Ekey.
      unfold stored_chat in Hkept. done. }
    rewrite Ekey. by apply stored_chat_insert.
  - unfold stored_chat. rewrite lookup_insert_ne by done. done.
Qed.

(** X27: a progress callback rewrites the content of the messages that have
    the id of the status message, and nothing else: the chat keeps its
    length and order, every message keeps its id, time and author, and a
    message with another id is left as it is.  So when the status message
    is no longer in the chat, the progress is dropped. *)
Theorem onProgress_touches_status_message_only (cb : Callbacks) (progress : Progress)
    (σ : Dash) :
  let id := match cb with GenerateCallbacks i _ | BuildCallbacks i _ => i end in
  let r := onProgress cb progress σ in
  r.1 = Returned tt
  ∧ Forall2 (λ m m', ChatMessage.id m' = ChatMessage.id m
                     ∧ ChatMessage.timestamp m' = ChatMessage.timestamp m
                     ∧ ChatMessage.isUser m' = ChatMessage.isUser m
                     ∧ (ChatMessage.id m ≠ id → m' = m)
                     ∧ (ChatMessage.id m = id →
                        ∃ mark, ChatMessage.content m' = mark +:+ message progress))
      (messages σ) (messages r.2)
  ∧ ((∀ m, m ∈ messages σ → ChatMessage.id m ≠ id) → r.2 = σ)
  ∧ projects r.2 = projects σ ∧ currentProject r.2 = currentProject σ
  ∧ calls r.2 = calls σ ∧ isBuilding r.2 = isBuilding σ.
Proof.
  intros id r.
  assert (∀ mark : string,
            let f := λ m, if ChatMessage.id m === id
                          then ChatMessage.with_content m (mark +:+ message progress)
                          else m in
            Forall2 (λ m m', ChatMessage.id m' = ChatMessage.id m
                     ∧ ChatMessage.timestamp m' = ChatMessage.timestamp m
                     ∧ ChatMessage.isUser m' = ChatMessage.isUser m
                     ∧ (ChatMessage.id m ≠ id → m' = m)
                     ∧ (ChatMessage.id m = id →
                        ∃ mark, ChatMessage.content m' = mark +:+ message progress))
              (messages σ) (map f (messages σ))
            ∧ ((∀ m, m ∈ messages σ → ChatMessage.id m ≠ id) →
               map f (messages σ) = messages σ)) as Hmap.
  { intros mark f. split.
    - induction (messages σ) as [|m ms IH]; cbn [map]; constructor; [|done].
      unfold f. destruct (ChatMessage.id m === id) eqn:E.
      + apply strict_eq_true in E. repeat split; try done. intros _. by exists mark.
      + apply strict_eq_false in E. repeat split; done.
    - intros Hno. induction (messages σ) as [|m ms IH]; [done|]. cbn [map]. f_equal.
      + unfold f. pose proof (Hno m (list_elem_of_here _ _)) as Hm.
        apply strict_eq_false in Hm. by rewrite Hm.
      + apply IH. intros m' Hm'. apply Hno. by apply list_elem_of_further. }
  assert (∃ mark, r = (Returned tt,
                       with_messages
                         (map (λ m, if ChatMessage.id m === id
                                    then ChatMessage.with_content m (mark +:+ message progress)
                                    else m) (messages σ)) σ)) as [mark Hr].
  { destruct cb; [by exists "⚡ "|by exists "🔧 "]. }
  rewrite Hr. cbn [fst snd]. fields. destruct (Hmap mark) as [HF Hsame].
  repeat split; try done.
  intros Hno. rewrite (Hsame Hno). by destruct σ.
Qed.

(** Every outcome of the completion callback of the generate call site. *)
Lemma onComplete_generate_outcomes (id : string) (updatedProject : Project.t)
    (result : StatusResponse) (σ : Dash) :
  wp (onComplete env (GenerateCallbacks id updatedProject) result) σ (λ o σ',
    o = Returned tt
    ∧ Forall2 (rewritten (Project.uid updatedProject) generated) (projects σ) (projects σ')
    ∧ calls σ' = calls σ
    ∧ currentProject σ' = currentProject σ
    ∧ (∃ m, messages σ' = messages σ ++ [m]
            ∧ ChatMessage.content m =
                "✅ Smart contract generated successfully! You can review the code in the editor, then Build → Audit → Deploy.")
    ∧ match response_code result with
      | Some code =>
          if Js.truthy code then
            generatedCode σ' = Some (Project.uid updatedProject, code)
            ∧ localStorage σ' =
                match setItem_throws env
                        ("bumm_contract_code_" +:+ Project.uid updatedProject) code with
                | Some _ => localStorage σ
                | None => <["bumm_contract_code_" +:+ Project.uid updatedProject := code]>
                            (localStorage σ)
                end
          else generatedCode σ' = generatedCode σ ∧ localStorage σ' = localStorage σ
      | None => generatedCode σ' = generatedCode σ ∧ localStorage σ' = localStorage σ
      end).
Proof.
  assert (∀ σ1 (Q : Outcome unit → Dash → Prop),
            (∀ ps n, Forall2 (rewritten (Project.uid updatedProject) generated)
                       (projects σ1) ps →
                     Q (Returned tt)
                       (posted env "✅ Smart contract generated successfully! You can review the code in the editor, then Build → Audit → Deploy."
                          false None None
                          (set_projects ps (with_clock_reads (n + clock_reads σ1) σ1)))) →
            wp (σ ← get_state;
                ps ← mapM (λ p,
                        if Project.uid p === Project.uid updatedProject
                        then (t ← new_Date_toISOString env; mret (generated p t))
                        else mret p) (projects σ);
                updateProjects (λ _, ps);;
                post env "✅ Smart contract generated successfully! You can review the code in the editor, then Build → Audit → Deploy."
                  false None None) σ1 Q) as Hrest.
  { intros σ1 Q HQ. run wp_get_state. cbn beta iota.
    apply wp_bind, run_map_by_uid. intros ps n F.
    run run_updateProjects. run run_post. by apply HQ. }
  unfold onComplete. apply wp_bind.
  destruct (response_code result) as [code|].
  - destruct (Js.truthy code).
    + apply wp_bind, wp_try_catch, run_setItem.
      destruct (setItem_throws env _ code) as [e|].
      * apply wp_ret. run run_setGeneratedCode. apply Hrest. intros ps n F. fields.
        repeat split; try done. by eexists.
      * run run_setGeneratedCode. apply Hrest. intros ps n F. fields.
        repeat split; try done. by eexists.
    + apply wp_ret. apply Hrest. intros ps n F. fields.
      repeat split; try done. by eexists.
  - apply wp_ret. apply Hrest. intros ps n F. fields.
    repeat split; try done. by eexists.
Qed.

(** X28: a storage failure does not lose the generated code.  When the
    response carries a non-empty code, the completion callback of the
    generate call site returns and [generatedCode] holds that code under the
    project's uid, whether [localStorage.setItem] throws or not; the store
    holds the code exactly when it did not throw. *)
Theorem onComplete_generate_keeps_code (id : string) (updatedProject : Project.t)
    (result : StatusResponse) (code : string) (σ : Dash) :
  response_code result = Some code →
  code ≠ "" →
  let key := "bumm_contract_code_" +:+ Project.uid updatedProject in
  let r := onComplete env (GenerateCallbacks id updatedProject) result σ in
  r.1 = Returned tt
  ∧ generatedCode r.2 = Some (Project.uid updatedProject, code)
  ∧ (setItem_throws env key code = None → localStorage r.2 !! key = Some code)
  ∧ (setItem_throws env key code ≠ None → localStorage r.2 = localStorage σ).
Proof.
  intros Hcode Hne key r.
  pose proof (onComplete_generate_outcomes id updatedProject result σ) as H.
  unfold wp in H. fold r in H. destruct H as (Hr & _ & _ & _ & _ & H).
  rewrite Hcode in H. apply strict_eq_false in Hne.
  unfold Js.truthy, Js.string_truthy in H. rewrite Hne in H. cbn [negb] in H.
  destruct H as [Hg Hls]. fold key in Hls. repeat split; try done.
  - intros Hok. rewrite Hls, Hok. apply lookup_insert_eq.
  - intros Hthrow. rewrite Hls. by destruct (setItem_throws env key code).
Qed.

(** X29: a completion without code still counts as a success.  When the
    response has no code, or the empty string, the completion callback of
    the generate call site leaves [generatedCode] and the store alone, and
    all the same gives every project with the uid the status 'generated'
    with no task, and appends the success message. *)
Theorem onComplete_generate_without_code (id : string) (updatedProject : Project.t)
    (result : StatusResponse) (σ : Dash) :
  Js.truthy (response_code result) = false →
  let r := onComplete env (GenerateCallbacks id updatedProject) result σ in
  r.1 = Returned tt
  ∧ generatedCode r.2 = generatedCode σ
  ∧ localStorage r.2 = localStorage σ
  ∧ Forall2 (λ p p', if Project.uid p === Project.uid updatedProject
                     then Project.status p' = "generated" ∧ Project.task p' = None
                          ∧ Project.name p' = Project.name p
                     else p' = p)
      (projects σ) (projects r.2)
  ∧ ∃ m, messages r.2 = messages σ ++ [m]
         ∧ ChatMessage.content m =
             "✅ Smart contract generated successfully! You can review the code in the editor, then Build → Audit → Deploy.".
Proof.
  intros Hfalsy r.
  pose proof (onComplete_generate_outcomes id updatedProject result σ) as H.
  unfold wp in H. fold r in H. destruct H as (Hr & HF & _ & _ & Hm & H).
  assert (generatedCode r.2 = generatedCode σ ∧ localStorage r.2 = localStorage σ)
    as [Hg Hls].
  { destruct (response_code result) as [code|]; [|done].
    change (Js.truthy (Some code)) with (Js.truthy code) in Hfalsy. by rewrite Hfalsy in H. }
  repeat split; try done.
  - eapply Forall2_impl; [exact HF|]. intros p p'. unfold rewritten.
    destruct (Project.uid p === Project.uid updatedProject); [|done].
    by intros [t ->].
Qed.

End Switching.

Lemma handleSelectProject_save_failure_witness :
  handleSelectProject Scenario.storage_full Scenario.json Sample.vault Scenario.chatting
    = (Returned tt, Scenario.chatting).
Proof.
  apply (handleSelectProject_save_failure Scenario.storage_full Scenario.json Sample.vault
           Sample.token (ErrorObject "QuotaExceededError") Scenario.chatting).
  - reflexivity.
  - vm_compute. discriminate.
  - reflexivity.
Defined.

Lemma handleSelectProject_round_trip_witness :
  currentProject (handleSelectProject Scenario.offline Scenario.json Sample.vault
                    Scenario.chatting).2 = Some Sample.vault
  ∧ currentProject
      (handleSelectProject Scenario.offline Scenario.json Sample.token
         (handleSelectProject Scenario.offline Scenario.json Sample.vault
            Scenario.chatting).2).2 = Some Sample.token
  ∧ messages
      (handleSelectProject Scenario.offline Scenario.json Sample.token
         (handleSelectProject Scenario.offline Scenario.json Sample.vault
            Scenario.chatting).2).2 = messages Scenario.chatting.
Proof.
  apply (handleSelectProject_round_trip Scenario.offline Scenario.json Sample.token
           Sample.vault Scenario.chatting).
  - reflexivity.
  - vm_compute. discriminate.
  - reflexivity.
  - vm_compute. discriminate.
  - vm_compute. reflexivity.
Defined.

Lemma onComplete_generate_keeps_code_witness :
  let result := mkStatusResponse None (Some "generated") (Some "fn main() {}") in
  let key := "bumm_contract_code_" +:+ Project.uid Sample.token in
  let r := onComplete Scenario.storage_full (GenerateCallbacks "1700000000000_1" Sample.token)
             result Sample.signed_in in
  r.1 = Returned tt
  ∧ generatedCode r.2 = Some (Project.uid Sample.token, "fn main() {}")
  ∧ (setItem_throws Scenario.storage_full key "fn main() {}" = None →
     localStorage r.2 !! key = Some "fn main() {}")
  ∧ (setItem_throws Scenario.storage_full key "fn main() {}" ≠ None →
     localStorage r.2 = localStorage Sample.signed_in).
Proof.
  apply (onComplete_generate_keeps_code Scenario.storage_full "1700000000000_1" Sample.token
           (mkStatusResponse None (Some "generated") (Some "fn main() {}")) "fn main() {}"
           Sample.signed_in).
  - reflexivity.
  - vm_compute. discriminate.
Defined.

Lemma onComplete_generate_without_code_witness :
  let result := mkStatusResponse None (Some "generated") (Some "") in
  let r := onComplete Sample.env (GenerateCallbacks "1700000000000_1" Sample.token)
             result Sample.signed_in in
  r.1 = Returned tt
  ∧ generatedCode r.2 = generatedCode Sample.signed_in
  ∧ localStorage r.2 = localStorage Sample.signed_in
  ∧ Forall2 (λ p p', if Project.uid p === Project.uid Sample.token
                     then Project.status p' = "generated" ∧ Project.task p' = None
                          ∧ Project.name p' = Project.name p
                     else p' = p)
      (projects Sample.signed_in) (projects r.2)
  ∧ ∃ m, messages r.2 = messages Sample.signed_in ++ [m]
         ∧ ChatMessage.content m =
             "✅ Smart contract generated successfully! You can review the code in the editor, then Build → Audit → Deploy.".
Proof.
  apply (onComplete_generate_without_code Sample.env "1700000000000_1" Sample.token
           (mkStatusResponse None (Some "generated") (Some "")) Sample.signed_in).
  reflexivity.
Defined.
